(** * X-Ray Threat Detector: a shallow embedding of [app_code/app.py]

    The development follows the layout of the Python module: the static
    tables ([THREAT_INFO], [FORMAT_OPTIONS]), the class-name resolver, the
    inference wrapper [predict], the background helper [get_bg_css], the
    result renderer [render_results] and the conversion pipeline of
    [render_image_converter].

    Conventions.
    - Python [str] is [string]; [+] on strings is [+:+].
    - Python [float] is IEEE binary64, modelled by [spec_float] with
      precision 53 and exponent bound 1024; every arithmetic step rounds
      as the hardware does.
    - A Python [dict] with string keys is a [gmap string _].
    - A call that can raise returns a [result]. *)

From Stdlib Require Import ZArith List String Ascii Bool Lia.
From Stdlib Require Import Floats.SpecFloat.
From stdpp Require Import gmap strings list pretty.

Open Scope string_scope.
Open Scope Z_scope.

(** ** Exceptions and the error monad *)

Inductive exn : Type :=
| ValueError
| IndexError
| KeyError
| OverflowError
| FileNotFoundError
| OSError.

Inductive result (A : Type) : Type :=
| Ok (a : A)
| Raise (e : exn).

Arguments Ok {A} a.
Arguments Raise {A} e.

Definition bind {A B : Type} (r : result A) (k : A -> result B) : result B :=
  match r with
  | Ok a => k a
  | Raise e => Raise e
  end.

Notation "'do' x <- r ; k" := (bind r (fun x => k))
  (at level 10, x pattern, r at level 100, k at level 200).

(** ** Python string primitives *)

Module PyStr.

(** [partition_first sep s]: the text before and after the first [sep],
    or [None] when [sep] does not occur. *)
Fixpoint partition_first (sep : ascii) (s : string) : option (string * string) :=
  match s with
  | EmptyString => None
  | String c rest =>
      if Ascii.eqb c sep then Some (EmptyString, rest)
      else match partition_first sep rest with
           | Some (before, after) => Some (String c before, after)
           | None => None
           end
  end.

(** [s.split(sep, maxsplit)] for a one-character separator and a
    non-negative [maxsplit]. *)
Fixpoint split (sep : ascii) (maxsplit : nat) (s : string) : list string :=
  match maxsplit with
  | O => [s]
  | S k =>
      match partition_first sep s with
      | Some (before, after) => before :: split sep k after
      | None => [s]
      end
  end.

(** [s.split(sep)] with no limit: the number of characters bounds the
    number of cuts. *)
Definition split_all (sep : ascii) (s : string) : list string :=
  split sep (String.length s) s.

(** Occurrence of a character. *)
Fixpoint contains (c : ascii) (s : string) : bool :=
  match s with
  | EmptyString => false
  | String d rest => Ascii.eqb d c || contains c rest
  end.

(** [s.rfind(c)]: index of the last occurrence, [-1] when absent. *)
Fixpoint rfind_from (c : ascii) (s : string) (i : Z) (found : Z) : Z :=
  match s with
  | EmptyString => found
  | String d rest => rfind_from c rest (i + 1) (if Ascii.eqb d c then i else found)
  end.

Definition rfind (c : ascii) (s : string) : Z := rfind_from c s 0 (-1).

Definition len (s : string) : Z := Z.of_nat (String.length s).

(** [s[:i]] for [0 <= i]. *)
Definition slice_to (i : Z) (s : string) : string :=
  String.substring 0 (Z.to_nat i) s.

(** [s.lower()] on ASCII text. *)
Definition lower_ascii (c : ascii) : ascii :=
  let n := nat_of_ascii c in
  if (Nat.leb 65 n && Nat.leb n 90)%bool then ascii_of_nat (n + 32) else c.

Fixpoint lower (s : string) : string :=
  match s with
  | EmptyString => EmptyString
  | String c rest => String (lower_ascii c) (lower rest)
  end.

End PyStr.

(** ** Class-name resolver *)

(** [clean_class_name]: ['Class 10_Battery'] becomes ['Battery']. *)
Definition clean_class_name (raw_name : string) : string :=
  let parts := PyStr.split "_" 1 raw_name in
  if Nat.eqb (List.length parts) 2 then nth 1 parts raw_name
  else raw_name.

(** ** Threat metadata *)

Record threat_info : Type := {
  risk : string;
  color : string;
  icon : option string;
  desc : string
}.

Definition THREAT_INFO_items : list (string * threat_info) := [
  ("Battery",
   {| risk := "Medium"; color := "#f0ad4e";
      icon := Some "https://cdn-icons-png.flaticon.com/512/3659/3659898.png";
      desc := "Lithium batteries can pose fire risks in cargo." |});
  ("Scissors",
   {| risk := "Medium"; color := "#f0ad4e";
      icon := Some "https://cdn-icons-png.flaticon.com/512/2544/2544tried.png";
      desc := "Scissors with blades over 6 cm are restricted." |});
  ("Hammer",
   {| risk := "Medium"; color := "#f0ad4e";
      icon := Some "https://cdn-icons-png.flaticon.com/512/595/595584.png";
      desc := "Blunt-force tools are prohibited in carry-on luggage." |});
  ("Pliers",
   {| risk := "Medium"; color := "#f0ad4e";
      icon := Some "https://cdn-icons-png.flaticon.com/512/595/595584.png";
      desc := "Hand tools over 7 cm are restricted in cabins." |});
  ("Wrench",
   {| risk := "Medium"; color := "#f0ad4e";
      icon := Some "https://cdn-icons-png.flaticon.com/512/595/595584.png";
      desc := "Heavy tools are not allowed as carry-on items." |});
  ("Explosive",
   {| risk := "Critical"; color := "#d9534f";
      icon := Some "https://cdn-icons-png.flaticon.com/512/2785/2785819.png";
      desc := "Explosive materials are strictly prohibited." |});
  ("Bullet",
   {| risk := "High"; color := "#d9534f";
      icon := Some "https://cdn-icons-png.flaticon.com/512/2785/2785819.png";
      desc := "Ammunition is banned from all passenger flights." |});
  ("Knife",
   {| risk := "High"; color := "#d9534f";
      icon := Some "https://cdn-icons-png.flaticon.com/512/3460/3460996.png";
      desc := "Knives of any length are prohibited in carry-on." |});
  ("Cutter",
   {| risk := "High"; color := "#d9534f";
      icon := Some "https://cdn-icons-png.flaticon.com/512/3460/3460996.png";
      desc := "Box cutters and blades are strictly forbidden." |});
  ("Lighter",
   {| risk := "Low"; color := "#5bc0de";
      icon := Some "https://cdn-icons-png.flaticon.com/512/785/785116.png";
      desc := "One disposable lighter is allowed on person only." |})
].

Definition THREAT_INFO : gmap string threat_info := list_to_map THREAT_INFO_items.

(** The fallback literal of [render_results]; it carries no icon key. *)
Definition unknown_info : threat_info :=
  {| risk := "Unknown"; color := "#94a3b8"; icon := None;
     desc := "No additional information available." |}.

(** [d.get(key, default)]. *)
Definition dict_get {V : Type} (d : gmap string V) (key : string) (default : V) : V :=
  match d !! key with
  | Some v => v
  | None => default
  end.

(** The lookup performed at the top of [render_results]. *)
Definition threat_lookup (predicted_class : string) : threat_info :=
  dict_get THREAT_INFO predicted_class unknown_info.

(** ** Python floats *)

Module PyFloat.

Definition prec : Z := 53.
Definition emax : Z := 1024.

(** [float(n)] for an integer [n]: the nearest binary64 value, ties to
    even.  (Python refuses integers beyond the binary64 range; image sides
    and byte counts stay far below it.) *)
Definition of_int (n : Z) : spec_float := binary_normalize prec emax n 0 false.

Definition mul : spec_float -> spec_float -> spec_float := SFmul prec emax.
Definition div : spec_float -> spec_float -> spec_float := SFdiv prec emax.

(** A decimal literal [num / den] of the source text denotes the binary64
    value nearest to that fraction; one correctly rounded division of the
    two integers produces it. *)
Definition literal (num den : positive) : spec_float :=
  div (S754_finite false num 0) (S754_finite false den 0).

Definition ltb : spec_float -> spec_float -> bool := SFltb.
Definition leb : spec_float -> spec_float -> bool := SFleb.
(** [a >= b] *)
Definition geb (a b : spec_float) : bool := SFleb b a.

Definition isnan (x : spec_float) : bool :=
  match x with S754_nan => true | _ => false end.

(** [int(x)]: truncation toward zero; NaN and the infinities raise. *)
Definition to_int (x : spec_float) : result Z :=
  match x with
  | S754_zero _ => Ok 0
  | S754_finite s m e =>
      let magnitude :=
        match e with
        | Zneg p => Z.shiftr (Zpos m) (Zpos p)
        | _ => Z.shiftl (Zpos m) e
        end in
      Ok (if s then - magnitude else magnitude)
  | S754_nan => Raise ValueError
  | S754_infinity _ => Raise OverflowError
  end.

End PyFloat.

(** The float literals that occur in the source. *)
Definition lit_0_30 : spec_float := Eval vm_compute in PyFloat.literal 30 100.
Definition lit_0_8 : spec_float := Eval vm_compute in PyFloat.literal 8 10.
Definition lit_0_5 : spec_float := Eval vm_compute in PyFloat.literal 5 10.
Definition lit_256_0 : spec_float := Eval vm_compute in PyFloat.literal 256 1.

(** ** numpy.argmax on a one-dimensional float array

    The scan keeps the running maximum [mp] and its index; an entry
    replaces it when [not (entry <= mp)], and a NaN ends the scan. *)
Fixpoint argmax_scan (ip : list spec_float) (i : nat) (mp : spec_float) (max_ind : nat) : nat :=
  match ip with
  | [] => max_ind
  | x :: rest =>
      if negb (PyFloat.leb x mp) then
        if PyFloat.isnan x then i else argmax_scan rest (S i) x i
      else argmax_scan rest (S i) mp max_ind
  end.

Definition np_argmax (a : list spec_float) : result nat :=
  match a with
  | [] => Raise ValueError
  | x :: rest => Ok (if PyFloat.isnan x then O else argmax_scan rest 1 x O)
  end.

(** [seq[i]] for a non-negative index. *)
Definition getitem {A : Type} (l : list A) (i : nat) : result A :=
  match nth_error l i with
  | Some x => Ok x
  | None => Raise IndexError
  end.

(** ** Pillow images

    An image value records its mode, its size and the Pillow calls that
    produced it; pixel contents stay symbolic. *)

Inductive resample_filter : Type := DEFAULT_FILTER | LANCZOS.

Inductive image : Type :=
| Decoded (file_id : nat) (mode : string) (size : Z * Z)
| Resized (im : image) (size : Z * Z) (resample : resample_filter)
| New (mode : string) (size : Z * Z) (fill : Z * Z * Z)
| Pasted (bg : image) (src : image) (mask : image)
| Band (im : image) (index : nat)
| Converted (im : image) (mode : string).

Module PIL.

Fixpoint mode (im : image) : string :=
  match im with
  | Decoded _ m _ => m
  | Resized im' _ _ => mode im'
  | New m _ _ => m
  | Pasted bg _ _ => mode bg
  | Band _ _ => "L"
  | Converted _ m => m
  end.

Fixpoint size (im : image) : Z * Z :=
  match im with
  | Decoded _ _ sz => sz
  | Resized _ sz _ => sz
  | New _ sz _ => sz
  | Pasted bg _ _ => size bg
  | Band im' _ => size im'
  | Converted im' _ => size im'
  end.

(** Number of bands of a mode ([Image.getbands]). *)
Definition band_count (m : string) : nat :=
  if String.eqb m "RGBA" || String.eqb m "CMYK" || String.eqb m "RGBX" || String.eqb m "RGBa"
  then 4%nat
  else if String.eqb m "RGB" || String.eqb m "YCbCr" || String.eqb m "LAB" || String.eqb m "HSV"
  then 3%nat
  else if String.eqb m "LA" || String.eqb m "PA" || String.eqb m "La"
  then 2%nat
  else 1%nat.

(** [im.split()] *)
Definition split (im : image) : list image :=
  map (Band im) (seq 0 (band_count (mode im))).

(** The values a C [int] holds; the resize routine takes both sides of
    the requested size as C ints. *)
Definition c_int (z : Z) : bool := (- 2 ^ 31 <=? z) && (z <? 2 ^ 31).

(** [im.resize(size, resample)]: a request for the current size returns a
    copy; otherwise a side that no C [int] holds raises OverflowError and
    a side below one pixel is refused with ValueError.  Whether the
    memory for a large result can be had is outside the model. *)
Definition resize (im : image) (sz : Z * Z) (resample : resample_filter) : result image :=
  if (fst (size im) =? fst sz) && (snd (size im) =? snd sz) then Ok im
  else if negb (c_int (fst sz) && c_int (snd sz)) then Raise OverflowError
  else if (fst sz <? 1) || (snd sz <? 1) then Raise ValueError
  else Ok (Resized im sz resample).

(** [im.convert(mode)] *)
Definition convert (im : image) (m : string) : image := Converted im m.

(** [bg.paste(src, mask=mask)] mutates [bg]; the value is [bg] afterwards. *)
Definition paste (bg src mask : image) : image := Pasted bg src mask.

End PIL.

(** ** Background image helper *)

(** The double-quote character, written apart from the literals. *)
Definition dq : string := String (ascii_of_nat 34) EmptyString.

(** The style sheet of [get_bg_css], before and after the embedded data. *)
Definition bg_css_head : string :=
  "
        <style>
        /* Full-page background */
        .stApp {
            background-image:
              linear-gradient(180deg, rgba(2,6,23,0.55), rgba(2,6,23,0.70)),
              url(" +:+
  dq +:+
  "data:image/jpeg;base64,".

Definition bg_css_tail : string :=
  dq +:+
  ");
            background-size: cover;
            background-position: center;
            background-attachment: fixed;
        }

        /* Soft " +:+
  dq +:+
  "glass" +:+
  dq +:+
  " wash so text stays readable */
        .stApp::before {
            content: " +:+
  dq +:+
  dq +:+
  ";
            position: fixed;
            inset: 0;
            background: rgba(15, 23, 42, 0.35);
            backdrop-filter: blur(6px);
            -webkit-backdrop-filter: blur(6px);
            z-index: -1;
        }

        /* Shader blobs (subtle glow) */
        .stApp::after {
            content: " +:+
  dq +:+
  dq +:+
  ";
            position: fixed;
            inset: -20%;
            background:
              radial-gradient(600px 420px at 18% 22%, rgba(56,189,248,0.18), transparent 55%),
              radial-gradient(520px 380px at 78% 28%, rgba(129,140,248,0.14), transparent 55%),
              radial-gradient(680px 520px at 55% 78%, rgba(34,197,94,0.10), transparent 60%);
            filter: blur(18px);
            opacity: 0.9;
            z-index: -2;
            pointer-events: none;
            animation: shaderDrift 14s ease-in-out infinite;
        }

        @keyframes shaderDrift {
          0%   { transform: translate3d(0,0,0) scale(1); }
          50%  { transform: translate3d(-2%, 1%, 0) scale(1.02); }
          100% { transform: translate3d(0,0,0) scale(1); }
        }
        </style>
        ".

(** [base64.b64encode(data).decode()] *)
Module Base64.

Definition alphabet : string :=
  "ABCDEFGHIJKLMNOPQRSTUVWXYZabcdefghijklmnopqrstuvwxyz0123456789+/".

Definition sextet (n : Z) : ascii :=
  match String.get (Z.to_nat (n mod 64)) alphabet with
  | Some c => c
  | None => "="%char
  end.

Definition byte_val (b : Byte.byte) : Z := Z.of_N (Byte.to_N b).

Fixpoint encode (data : list Byte.byte) : string :=
  match data with
  | [] => EmptyString
  | [a] =>
      let n := byte_val a * 65536 in
      String (sextet (n / 262144)) (String (sextet (n / 4096)) "==")
  | [a; b] =>
      let n := byte_val a * 65536 + byte_val b * 256 in
      String (sextet (n / 262144)) (String (sextet (n / 4096))
        (String (sextet (n / 64)) "="))
  | a :: b :: c :: rest =>
      let n := byte_val a * 65536 + byte_val b * 256 + byte_val c in
      String (sextet (n / 262144)) (String (sextet (n / 4096))
        (String (sextet (n / 64)) (String (sextet n) (encode rest))))
  end.

End Base64.

(** ** Image converter tables and helpers *)

Record format_info : Type := {
  ext : string;
  mime : string;
  pillow : string
}.

Definition FORMAT_OPTIONS_items : list (string * format_info) := [
  ("PNG", {| ext := "png"; mime := "image/png"; pillow := "PNG" |});
  ("JPEG", {| ext := "jpg"; mime := "image/jpeg"; pillow := "JPEG" |});
  ("BMP", {| ext := "bmp"; mime := "image/bmp"; pillow := "BMP" |});
  ("GIF", {| ext := "gif"; mime := "image/gif"; pillow := "GIF" |});
  ("TIFF", {| ext := "tiff"; mime := "image/tiff"; pillow := "TIFF" |});
  ("WEBP", {| ext := "webp"; mime := "image/webp"; pillow := "WEBP" |});
  ("ICO", {| ext := "ico"; mime := "image/x-icon"; pillow := "ICO" |})
].

Definition FORMAT_OPTIONS : gmap string format_info := list_to_map FORMAT_OPTIONS_items.

(** [d[key]] *)
Definition dict_getitem {V : Type} (d : gmap string V) (key : string) : result V :=
  match d !! key with
  | Some v => Ok v
  | None => Raise KeyError
  end.

(** [x in (a, b, ...)] on strings. *)
Definition str_in (x : string) (options : list string) : bool :=
  existsb (String.eqb x) options.

(** [pathlib.PurePosixPath]: the final component and its stem. *)
Module PyPath.

Definition is_component (x : string) : bool :=
  negb (String.eqb x EmptyString) && negb (String.eqb x ".").

Definition name (path : string) : string :=
  List.last (List.filter is_component (PyStr.split_all "/" path)) EmptyString.

Definition stem (path : string) : string :=
  let nm := name path in
  let i := PyStr.rfind "." nm in
  if (0 <? i) && (i <? PyStr.len nm - 1) then PyStr.slice_to i nm else nm.

End PyPath.

(** ** Number formatting

    [file_size / 1024] and [file_size / (1024 * 1024)] divide an integer
    below [2^53] by a power of two, so the binary64 quotient is the exact
    fraction.  [round(x, ndigits)] rounds that exact value to the nearest
    multiple of [10^-ndigits], ties to the even neighbour, and [str] prints
    the shortest decimal that reads back as the same float: the rounded
    decimal without trailing zeros, keeping one fractional digit.  The
    rounded value is carried as an integer count of [10^-ndigits]. *)

Module PyNum.

(** Nearest integer to [num / den], ties to even, for [0 < den]. *)
Definition div_half_even (num den : Z) : Z :=
  let q := num / den in
  let r := num mod den in
  if 2 * r <? den then q
  else if den <? 2 * r then q + 1
  else if Z.even q then q else q + 1.

(** [round(num / den, ndigits)], scaled by [10^ndigits]. *)
Definition round_ratio (num den : Z) (ndigits : nat) : Z :=
  div_half_even (num * 10 ^ Z.of_nat ndigits) den.

Definition digit (d : Z) : ascii := ascii_of_nat (48 + Z.to_nat d).

(** The [k] fractional digits of [f / 10^k], for [0 <= f < 10^k]. *)
Fixpoint frac_digits (k : nat) (f : Z) : string :=
  match k with
  | O => EmptyString
  | S k' =>
      let p := 10 ^ Z.of_nat k' in
      String (digit (f / p)) (frac_digits k' (f mod p))
  end.

Fixpoint strip_trailing_zeros (s : string) : string :=
  match s with
  | EmptyString => EmptyString
  | String c rest =>
      match strip_trailing_zeros rest with
      | EmptyString => if Ascii.eqb c "0" then EmptyString else String c EmptyString
      | kept => String c kept
      end
  end.

(** [str(x)] for the float [x = scaled / 10^ndigits], [0 <= scaled]. *)
Definition str_scaled (scaled : Z) (ndigits : nat) : string :=
  let p := 10 ^ Z.of_nat ndigits in
  let frac :=
    match strip_trailing_zeros (frac_digits ndigits (scaled mod p)) with
    | EmptyString => "0"
    | kept => kept
    end in
  pretty (scaled / p) +:+ "." +:+ frac.

(** [str(round(num / den, ndigits))] *)
Definition str_round_ratio (num den : Z) (ndigits : nat) : string :=
  str_scaled (round_ratio num den ndigits) ndigits.

End PyNum.

(** The file-size text of [render_image_converter]. *)
Definition format_file_size (file_size : Z) : string :=
  if file_size <? 1024 then pretty file_size +:+ " B"
  else if file_size <? 1024 * 1024 then PyNum.str_round_ratio file_size 1024 1 +:+ " KB"
  else PyNum.str_round_ratio file_size (1024 * 1024) 2 +:+ " MB".

(** ** The conversion pipeline of [render_image_converter] *)

Definition white : Z * Z * Z := (255, 255, 255).

(** Resize if requested. *)
Definition resize_step (out_image : image) (resize : bool) (new_w new_h : Z) : result image :=
  if resize then PIL.resize out_image (new_w, new_h) LANCZOS else Ok out_image.

(** Convert RGBA to RGB for formats that don't support alpha. *)
Definition alpha_step (target_format : string) (out_image : image) : result image :=
  if str_in target_format ["JPEG"; "BMP"; "ICO"] && String.eqb (PIL.mode out_image) "RGBA" then
    let bg := New "RGB" (PIL.size out_image) white in
    do mask <- getitem (PIL.split out_image) 3;
    Ok (PIL.paste bg out_image mask)
  else if String.eqb target_format "JPEG" && negb (String.eqb (PIL.mode out_image) "RGB") then
    Ok (PIL.convert out_image "RGB")
  else Ok out_image.

(** ICO size limit. *)
Definition ico_step (target_format : string) (out_image : image) : result image :=
  if String.eqb target_format "ICO" then
    let max_dim := Z.max (fst (PIL.size out_image)) (snd (PIL.size out_image)) in
    if 256 <? max_dim then
      let ratio := PyFloat.div lit_256_0 (PyFloat.of_int max_dim) in
      do w <- PyFloat.to_int (PyFloat.mul (PyFloat.of_int (fst (PIL.size out_image))) ratio);
      do h <- PyFloat.to_int (PyFloat.mul (PyFloat.of_int (snd (PIL.size out_image))) ratio);
      PIL.resize out_image (w, h) LANCZOS
    else Ok out_image
  else Ok out_image.

(** From [out_image = conv_image.copy()] to the image handed to [save]. *)
Definition convert_image (conv_image : image) (target_format : string)
    (resize : bool) (new_w new_h : Z) : result image :=
  do out_image <- resize_step conv_image resize new_w new_h;
  do out_image <- alpha_step target_format out_image;
  ico_step target_format out_image.

(** The download file name. *)
Definition output_name (file_name : string) (fmt_info : format_info) : string :=
  PyPath.stem file_name +:+ "_converted." +:+ ext fmt_info.

(** ** Result rendering *)

(** The local variables of [render_results] that feed the result card. *)
Record result_card : Type := {
  card_predicted_class : string;
  card_confidence : spec_float;
  display_name : string;
  display_risk : string;
  risk_class : string;
  display_desc : string;
  conf_color : string
}.

Definition render_card (predicted_class : string) (confidence : spec_float) : result_card :=
  let info := threat_lookup predicted_class in
  let risk0 := risk info in
  let risk_class0 := "risk-" +:+ PyStr.lower risk0 in
  let is_uncertain := PyFloat.ltb confidence lit_0_30 in
  let conf_color0 :=
    if PyFloat.geb confidence lit_0_8 then "#22c55e"
    else if PyFloat.geb confidence lit_0_5 then "#eab308"
    else "#ef4444" in
  if is_uncertain then
    {| card_predicted_class := predicted_class;
       card_confidence := confidence;
       display_name := "Not Known";
       display_risk := "Unknown";
       risk_class := "risk-low";
       display_desc :=
         "The model is not confident enough. Closest guess: " +:+ predicted_class +:+ ".";
       conf_color := conf_color0 |}
  else
    {| card_predicted_class := predicted_class;
       card_confidence := confidence;
       display_name := predicted_class;
       display_risk := risk0;
       risk_class := risk_class0;
       display_desc := desc info;
       conf_color := conf_color0 |}.

(** ** Percentage texts and probability table of [render_results] *)

Module PyRound.

(** [round(x)]: the nearest integer, ties to even; NaN and the infinities
    raise. *)
Definition to_int (x : spec_float) : result Z :=
  match x with
  | S754_zero _ => Ok 0
  | S754_finite s m e =>
      let magnitude :=
        match e with
        | Zneg p => PyNum.div_half_even (Zpos m) (2 ^ Zpos p)
        | _ => Z.shiftl (Zpos m) e
        end in
      Ok (if s then - magnitude else magnitude)
  | S754_nan => Raise ValueError
  | S754_infinity _ => Raise OverflowError
  end.

(** [round(x, ndigits)] for a small non-negative [ndigits]: the exact
    value is rounded to the nearest multiple of [10^-ndigits], ties to
    even, and the decimal is read back as the nearest float; NaN, the
    infinities and the zeros round to themselves. *)
Definition to_digits (x : spec_float) (ndigits : nat) : spec_float :=
  match x with
  | S754_finite s m e =>
      let p := 10 ^ Z.of_nat ndigits in
      let scaled :=
        match e with
        | Zneg q => PyNum.div_half_even (Zpos m * p) (2 ^ Zpos q)
        | _ => Z.shiftl (Zpos m) e * p
        end in
      match scaled with
      | Zpos r => PyFloat.div (S754_finite s r 0) (S754_finite false (Z.to_pos p) 0)
      | _ => S754_zero s
      end
  | _ => x
  end.

End PyRound.

(** [x * 100] for a float [x]. *)
Definition times_100 (x : spec_float) : spec_float :=
  PyFloat.mul x (PyFloat.of_int 100).

(** [conf_pct] before [str] and [conf_width]: the first cannot raise, the
    second raises when the product is NaN or infinite. *)
Definition confidence_texts (confidence : spec_float) : result (spec_float * string) :=
  let conf_pct := PyRound.to_digits (times_100 confidence) 1 in
  do width <- PyRound.to_int (times_100 confidence);
  Ok (conf_pct, pretty width).

(** One row of the probability table: the class name, the percentage
    before [str] and the bar width. *)
Record prob_row : Type := {
  row_name : string;
  row_pct : spec_float;
  row_bar_w : Z
}.

(** The body of [for idx in sorted_indices]. *)
Fixpoint probability_rows_loop (class_names : list string) (probs : list spec_float)
    (sorted_indices : list nat) : result (list prob_row) :=
  match sorted_indices with
  | [] => Ok []
  | idx :: rest =>
      do name <- getitem class_names idx;
      do prob <- getitem probs idx;
      let pct := PyRound.to_digits (times_100 prob) 1 in
      do bar_w <- PyRound.to_int (times_100 prob);
      do rows <- probability_rows_loop class_names probs rest;
      Ok ({| row_name := name; row_pct := pct; row_bar_w := bar_w |} :: rows)
  end.

(** ** Process state: the Streamlit caches *)

(** A loaded TFLite interpreter: the input tensor shape and the forward
    pass (array conversion, EfficientNet preprocessing, [set_tensor],
    [invoke] and [get_tensor]) as a function of the resized RGB image.
    The record describes a pass that goes through: a refusal by
    [set_tensor] or [invoke] and the tensors the pass leaves inside the
    interpreter are outside the model. *)
Record interpreter : Type := {
  input_shape : list Z;
  forward : image -> list (list spec_float)
}.

Record caches : Type := {
  model_cache : option interpreter;
  class_names_cache : option (list string)
}.

Definition cold : caches := {| model_cache := None; class_names_cache := None |}.

(** Computations that read and fill the caches and may raise. *)
Definition M (A : Type) : Type := caches -> result A * caches.

Definition ret {A : Type} (a : A) : M A := fun st => (Ok a, st).

Definition lift {A : Type} (r : result A) : M A := fun st => (r, st).

Definition mbind {A B : Type} (m : M A) (k : A -> M B) : M B :=
  fun st =>
    match m st with
    | (Ok a, st') => k a st'
    | (Raise e, st') => (Raise e, st')
    end.

Notation "'run' x <- m ; k" := (mbind m (fun x => k))
  (at level 10, x pattern, m at level 100, k at level 200).

Record uploaded_file : Type := {
  file_name : string;
  file_bytes : list Byte.byte
}.

Record conversion : Type := {
  conv_out_image : image;
  conv_data : list Byte.byte;
  conv_size_str : string;
  conv_out_name : string;
  conv_mime : string
}.

(** The widget values of the converter tab. *)
Record converter_inputs : Type := {
  conv_file : option uploaded_file;
  target_format : string;
  quality : Z;
  resize : bool;
  new_w : Z;
  new_h : Z;
  convert_clicked : bool
}.

(** What [render_results] puts on the page: the result card, the two
    percentage texts of the card and the rows of the probability table. *)
Definition scan_view : Type := (result_card * (spec_float * string) * list prob_row)%type.

Record page : Type := {
  page_background : string;
  page_scan : option scan_view;
  page_conversion : option conversion
}.

Section App.

(** The files on disk, keyed by path, and the library calls whose results
    depend on file contents. *)
Variable fs : gmap string (list Byte.byte).
Variable PROJECT_ROOT : string.
Variable Image_open : list Byte.byte -> result image.
Variable Image_save : image -> string -> option Z -> result (list Byte.byte).
Variable np_load : list Byte.byte -> result (list string).
Variable tflite_Interpreter : list Byte.byte -> result interpreter.
(** [numpy.argsort] on a one-dimensional float array. *)
Variable np_argsort : list spec_float -> list nat.

Definition MODEL_PATH : string := PROJECT_ROOT +:+ "/saved_models/best_model_part2.tflite".
Definition CLASS_NAMES_PATH : string := PROJECT_ROOT +:+ "/saved_models/class_names_7classes.npy".
Definition BG_IMAGE_PATH : string := PROJECT_ROOT +:+ "/3rdairport.jpg".

(** [@st.cache_resource load_model] *)
Definition load_model : M interpreter :=
  fun st =>
    match model_cache st with
    | Some interp => (Ok interp, st)
    | None =>
        match fs !! MODEL_PATH with
        | None => (Raise ValueError, st)
        | Some content =>
            match tflite_Interpreter content with
            | Ok interp =>
                (Ok interp, {| model_cache := Some interp;
                               class_names_cache := class_names_cache st |})
            | Raise e => (Raise e, st)
            end
        end
    end.

(** [@st.cache_data load_class_names] *)
Definition load_class_names : M (list string) :=
  fun st =>
    match class_names_cache st with
    | Some names => (Ok names, st)
    | None =>
        match fs !! CLASS_NAMES_PATH with
        | None => (Raise FileNotFoundError, st)
        | Some content =>
            match np_load content with
            | Ok raw_names =>
                let names := map clean_class_name raw_names in
                (Ok names, {| model_cache := model_cache st;
                              class_names_cache := Some names |})
            | Raise e => (Raise e, st)
            end
        end
    end.

(** [predict(interpreter, image)] *)
Definition predict (interp : interpreter) (img : image)
    : M (string * spec_float * list spec_float) :=
  run class_names <- load_class_names;
  run height <- lift (getitem (input_shape interp) 1);
  run width <- lift (getitem (input_shape interp) 2);
  run img' <- lift (PIL.resize (PIL.convert img "RGB") (width, height) DEFAULT_FILTER);
  let output := forward interp img' in
  run probs <- lift (getitem output 0);
  run top_idx <- lift (np_argmax probs);
  run confidence <- lift (getitem probs top_idx);
  run predicted_class <- lift (getitem class_names top_idx);
  ret (predicted_class, confidence, probs).

(** [get_bg_css()] *)
Definition get_bg_css : string :=
  match fs !! BG_IMAGE_PATH with
  | Some content => bg_css_head +:+ Base64.encode content +:+ bg_css_tail
  | None => EmptyString
  end.

(** Sort by probability descending: [np.argsort(probs)[::-1]], then one
    row per index. *)
Definition probability_rows (class_names : list string) (probs : list spec_float)
    : result (list prob_row) :=
  probability_rows_loop class_names probs (rev (np_argsort probs)).

(** [render_results] up to and including the [st.markdown] call that
    draws the top result card: the class names, the card and its two
    percentage texts.  The second text is [str(round(confidence * 100))],
    which raises before anything is drawn. *)
Definition render_result_card (predicted_class : string) (confidence : spec_float)
    : M (list string * result_card * (spec_float * string)) :=
  run class_names <- load_class_names;
  let card := render_card predicted_class confidence in
  run texts <- lift (confidence_texts confidence);
  ret (class_names, card, texts).

(** [render_results(predicted_class, confidence, probs)]: the result
    card, then the probability table, in the order of the source. *)
Definition render_results (predicted_class : string) (confidence : spec_float)
    (probs : list spec_float) : M scan_view :=
  run drawn <- render_result_card predicted_class confidence;
  let '(class_names, card, texts) := drawn in
  run rows <- lift (probability_rows class_names probs);
  ret (card, texts, rows).

(** The work behind the Convert button. *)
Definition on_convert (file : uploaded_file) (conv_image : image)
    (inputs : converter_inputs) : result conversion :=
  do fmt_info <- dict_getitem FORMAT_OPTIONS (target_format inputs);
  do out_image <- convert_image conv_image (target_format inputs) (resize inputs)
                    (new_w inputs) (new_h inputs);
  let save_quality :=
    if str_in (target_format inputs) ["JPEG"; "WEBP"] then Some (quality inputs) else None in
  do data <- Image_save out_image (pillow fmt_info) save_quality;
  let file_size := Z.of_nat (List.length data) in
  Ok {| conv_out_image := out_image;
        conv_data := data;
        conv_size_str := format_file_size file_size;
        conv_out_name := output_name (file_name file) fmt_info;
        conv_mime := mime fmt_info |}.

(** [render_image_converter()] *)
Definition render_image_converter (inputs : converter_inputs) : result (option conversion) :=
  match conv_file inputs with
  | None => Ok None
  | Some file =>
      do conv_image <- Image_open (file_bytes file);
      if convert_clicked inputs then
        do c <- on_convert file conv_image inputs;
        Ok (Some c)
      else Ok None
  end.

(** The scan tab of [main]. *)
Definition scan_tab (scan_file : option uploaded_file) : M (option scan_view) :=
  match scan_file with
  | None => ret None
  | Some file =>
      run img <- lift (Image_open (file_bytes file));
      run interp <- load_model;
      run prediction <- predict interp img;
      let '(predicted_class, confidence, probs) := prediction in
      run shown <- render_results predicted_class confidence probs;
      ret (Some shown)
  end.

(** [main()]: one render cycle. *)
Definition main (scan_file : option uploaded_file) (inputs : converter_inputs) : M page :=
  let background := get_bg_css in
  run scan <- scan_tab scan_file;
  run conv <- lift (render_image_converter inputs);
  ret {| page_background := background; page_scan := scan; page_conversion := conv |}.

End App.

(** ** Vocabulary of the statements *)

(** As the specification words it: a mode with transparency, that is, one
    of Pillow's modes that carry an alpha band. *)
Definition mode_has_alpha (m : string) : bool :=
  str_in m ["LA"; "La"; "PA"; "RGBA"; "RGBa"].

(** As the specification words it: [src] composited onto an opaque white
    background of the same size with band [k] of [src] as the blend mask. *)
Definition flattened_on_white (src : image) (k : nat) : image :=
  Pasted (New "RGB" (PIL.size src) white) src (Band src k).

(** As the specification words it: the stem is the text before the first
    extension separator. *)
Definition stem_before_first_dot (file_name : string) : string :=
  match PyStr.partition_first "." file_name with
  | Some (before, _) => before
  | None => file_name
  end.

(** The order of the non-NaN floats, read off a triple of integers:
    class (infinities outermost, zero in the middle), exponent, mantissa. *)
Definition rank (x : spec_float) : Z * Z * Z :=
  match x with
  | S754_zero _ => (0, 0, 0)
  | S754_infinity false => (2, 0, 0)
  | S754_infinity true => (-2, 0, 0)
  | S754_nan => (0, 0, 0)
  | S754_finite false m e => (1, e, Zpos m)
  | S754_finite true m e => (-1, - e, Zneg m)
  end.

Definition lex_compare (a b : Z * Z * Z) : comparison :=
  match fst (fst a) ?= fst (fst b) with
  | Eq => match snd (fst a) ?= snd (fst b) with
          | Eq => snd a ?= snd b
          | c => c
          end
  | c => c
  end.

Definition lex_lt (a b : Z * Z * Z) : Prop :=
  fst (fst a) < fst (fst b) \/
  (fst (fst a) = fst (fst b) /\
   (snd (fst a) < snd (fst b) \/ (snd (fst a) = snd (fst b) /\ snd a < snd b))).

Definition lex_le (a b : Z * Z * Z) : Prop :=
  fst (fst a) < fst (fst b) \/
  (fst (fst a) = fst (fst b) /\
   (snd (fst a) < snd (fst b) \/ (snd (fst a) = snd (fst b) /\ snd a <= snd b))).

Definition no_nan (l : list spec_float) : Prop :=
  Forall (fun x => PyFloat.isnan x = false) l.

(** [top] is a greatest entry of [l] and [idx] is its first position. *)
Definition first_maximum (l : list spec_float) (idx : nat) (top : spec_float) : Prop :=
  nth_error l idx = Some top /\
  (forall j x, nth_error l j = Some x -> PyFloat.leb x top = true) /\
  (forall j x, (j < idx)%nat -> nth_error l j = Some x -> PyFloat.ltb x top = true).

(** ** Sample inputs *)

Module Sample.

Definition raw_names : list string :=
  ["Class 1_Battery"; "Class 2_Bullet"; "Class 3_Cutter"; "Class 4_Hammer";
   "Class 5_Lighter"; "Class 6_Knife"; "Class 7_Pliers"].

Definition names : list string := map clean_class_name raw_names.

(** [[0.05, 0.05, 0.05, 0.05, 0.05, 0.70, 0.05]] *)
Definition probs : list spec_float :=
  map (fun n => PyFloat.literal n 100) [5; 5; 5; 5; 5; 70; 5]%positive.

Definition interp : interpreter :=
  {| input_shape := [1; 224; 224; 3]; forward := fun _ => [probs] |}.

Definition root : string := "/app".

(** A disk that holds the model and the label file but no background. *)
Definition disk : gmap string (list Byte.byte) :=
  {[ MODEL_PATH root := [Byte.x54; Byte.x46; Byte.x4c; Byte.x33];
     CLASS_NAMES_PATH root := [Byte.x93; Byte.x4e] ]}.

Definition np_load (content : list Byte.byte) : result (list string) := Ok raw_names.

Definition tflite_Interpreter (content : list Byte.byte) : result interpreter := Ok interp.

Definition Image_open (content : list Byte.byte) : result image :=
  Ok (Decoded (List.length content) "RGB" (640, 480)).

Definition Image_save (im : image) (fmt : string) (q : option Z)
    : result (list Byte.byte) := Ok [Byte.x00].

Definition scan : uploaded_file :=
  {| file_name := "bag.png"; file_bytes := [Byte.x89; Byte.x50] |}.

Definition warm : caches :=
  {| model_cache := None; class_names_cache := Some names |}.

Definition no_conversion : converter_inputs :=
  {| conv_file := None; target_format := "PNG"; quality := 95; resize := false;
     new_w := 1; new_h := 1; convert_clicked := false |}.

End Sample.

(** The badge classes for which [CUSTOM_CSS] has a rule. *)
Definition styled_risk_classes : list string :=
  ["risk-critical"; "risk-high"; "risk-medium"; "risk-low"].

(** ** Checking a range of integers *)

(** [all_from start count test]: [test] holds on [start], [start + 1], ...,
    [start + count - 1]. *)
Fixpoint all_from (start : Z) (count : nat) (test : Z -> bool) : bool :=
  match count with
  | O => true
  | S k => test start && all_from (start + 1) k test
  end.

(** The side computed by the ICO step: [int(side * (256.0 / max_dim))]. *)
Definition ico_side (side max_dim : Z) : result Z :=
  PyFloat.to_int
    (PyFloat.mul (PyFloat.of_int side) (PyFloat.div lit_256_0 (PyFloat.of_int max_dim))).

(** For a longest side [max_dim]: that side comes out as 255 or 256 and a
    side of one pixel comes out as 0. *)
Definition ico_scale_ok (max_dim : Z) : bool :=
  match ico_side max_dim max_dim, ico_side 1 max_dim with
  | Ok s, Ok u => ((s =? 255) || (s =? 256)) && (u =? 0)
  | _, _ => false
  end.

(** Sample inputs for the probability table. *)
Module SampleTable.

(** A stable ascending insertion sort of the indices, one admissible
    behaviour of [numpy.argsort]. *)
Fixpoint insert_index (a : list spec_float) (i : nat) (sorted : list nat) : list nat :=
  match sorted with
  | [] => [i]
  | j :: rest =>
      if PyFloat.ltb (nth i a S754_nan) (nth j a S754_nan)
      then i :: j :: rest
      else j :: insert_index a i rest
  end.

Definition argsort (a : list spec_float) : list nat :=
  fold_left (fun sorted i => insert_index a i sorted) (seq 0 (List.length a)) [].

(** A model output with a NaN in second place. *)
Definition probs_with_nan : list spec_float :=
  [PyFloat.literal 10 100; S754_nan; PyFloat.literal 20 100].

(** A label file that lists five names for a seven-class model. *)
Definition short_names : list string := firstn 5 Sample.names.

End SampleTable.

(** * Properties *)

(** ** Strings *)

Lemma partition_first_absent sep s :
  PyStr.contains sep s = false -> PyStr.partition_first sep s = None.
Proof.
  induction s as [|c rest IH]; simpl; [reflexivity|].
  intros H. apply orb_false_iff in H as [Hc Hrest].
  rewrite Hc, (IH Hrest). reflexivity.
Qed.

Lemma partition_first_present sep before after :
  PyStr.contains sep before = false ->
  PyStr.partition_first sep (before +:+ String sep after) = Some (before, after).
Proof.
  induction before as [|c rest IH]; simpl; intros H.
  - rewrite Ascii.eqb_refl. reflexivity.
  - apply orb_false_iff in H as [Hc Hrest].
    rewrite Hc, (IH Hrest). reflexivity.
Qed.

Lemma partition_first_inv sep s before after :
  PyStr.partition_first sep s = Some (before, after) ->
  s = before +:+ String sep after /\ PyStr.contains sep before = false.
Proof.
  revert before. induction s as [|c rest IH]; simpl; intros before H; [discriminate|].
  destruct (Ascii.eqb c sep) eqn:Hc.
  - apply Ascii.eqb_eq in Hc. inversion H; subst. split; reflexivity.
  - destruct (PyStr.partition_first sep rest) as [[b a]|] eqn:Hp; [|discriminate].
    inversion H; subst. destruct (IH b eq_refl) as [-> Hb].
    split; [reflexivity|]. simpl. rewrite Hc, Hb. reflexivity.
Qed.

Lemma split_once_cases raw :
  (PyStr.contains "_" raw = false /\ PyStr.split "_" 1 raw = [raw]) \/
  (exists before after,
      raw = before +:+ "_" +:+ after /\ PyStr.contains "_" before = false /\
      PyStr.split "_" 1 raw = [before; after]).
Proof.
  unfold PyStr.split.
  destruct (PyStr.partition_first "_" raw) as [[b a]|] eqn:Hp.
  - right. exists b, a. apply partition_first_inv in Hp as [-> Hb]. auto.
  - left. split; [|reflexivity].
    destruct (PyStr.contains "_" raw) eqn:Hc; [|reflexivity].
    exfalso. clear -Hp Hc. induction raw as [|c rest IH]; simpl in *; [discriminate|].
    destruct (Ascii.eqb c "_"); [discriminate|].
    destruct (PyStr.partition_first "_" rest) as [[b a]|]; [discriminate|].
    auto.
Qed.

(** C3. [clean_class_name] cuts at the first underscore only: a name
    [before_after] whose [before] has no underscore yields [after]; a name
    without underscore is returned unchanged; in terms of the parts of
    [split("_", 1)], exactly two parts yield the second and any other count
    yields the input.  The function is total.  The three examples of the
    specification hold. *)
Theorem clean_class_name_first_underscore :
  (forall before after,
      PyStr.contains "_" before = false ->
      clean_class_name (before +:+ "_" +:+ after) = after) /\
  (forall raw, PyStr.contains "_" raw = false -> clean_class_name raw = raw) /\
  (forall raw p1 p2, PyStr.split "_" 1 raw = [p1; p2] -> clean_class_name raw = p2) /\
  (forall raw, List.length (PyStr.split "_" 1 raw) <> 2%nat -> clean_class_name raw = raw) /\
  clean_class_name "Class 10_Battery" = "Battery" /\
  clean_class_name "Battery" = "Battery" /\
  clean_class_name "A_B_C" = "B_C".
Proof.
  repeat split; try reflexivity.
  - intros before after H. unfold clean_class_name, PyStr.split.
    change (before +:+ "_" +:+ after) with (before +:+ String "_" after).
    rewrite (partition_first_present _ _ _ H). reflexivity.
  - intros raw H. unfold clean_class_name, PyStr.split.
    rewrite (partition_first_absent _ _ H). reflexivity.
  - intros raw p1 p2 H. unfold clean_class_name. rewrite H. reflexivity.
  - intros raw H. unfold clean_class_name.
    destruct (Nat.eqb_spec (List.length (PyStr.split "_" 1 raw)) 2); [contradiction|reflexivity].
Qed.

Lemma clean_class_name_first_underscore_witness :
  clean_class_name ("Class 10" +:+ "_" +:+ "Battery_Pack") = "Battery_Pack" /\
  clean_class_name "Knife" = "Knife".
Proof.
  destruct clean_class_name_first_underscore as (Hcut & Hkeep & _).
  split.
  - apply Hcut. reflexivity.
  - apply Hkeep. reflexivity.
Defined.

(** ** Threat catalog *)

Lemma THREAT_INFO_keys :
  map fst THREAT_INFO_items =
  ["Battery"; "Scissors"; "Hammer"; "Pliers"; "Wrench";
   "Explosive"; "Bullet"; "Knife"; "Cutter"; "Lighter"].
Proof. reflexivity. Qed.

(** C4. The catalog lookup is a total function: a name among the ten
    catalog keys yields its own record, any other name yields the default
    record with risk "Unknown", the gray colour "#94a3b8" and the text
    "No additional information available." *)
Theorem threat_lookup_total (name : string) :
  List.length THREAT_INFO_items = 10%nat /\
  (forall info, In (name, info) THREAT_INFO_items -> threat_lookup name = info) /\
  (~ In name (map fst THREAT_INFO_items) ->
     threat_lookup name = unknown_info /\
     risk (threat_lookup name) = "Unknown" /\
     color (threat_lookup name) = "#94a3b8" /\
     desc (threat_lookup name) = "No additional information available.") /\
  risk (threat_lookup "Explosive") = "Critical" /\
  risk (threat_lookup "Lighter") = "Low" /\
  risk (threat_lookup "NotAThreat") = "Unknown".
Proof.
  split; [reflexivity|]. split; [|split; [|repeat split; vm_compute; reflexivity]].
  - intros info Hin. simpl in Hin.
    repeat (destruct Hin as [Heq|Hin];
            [inversion Heq; subst; vm_compute; reflexivity|]).
    contradiction.
  - intros Hnot.
    assert (THREAT_INFO !! name = None) as Hnone.
    { apply not_elem_of_list_to_map_1. rewrite list_elem_of_In. exact Hnot. }
    unfold threat_lookup, dict_get. rewrite Hnone. repeat split.
Qed.

Lemma threat_lookup_total_witness :
  threat_lookup "Knife" =
    {| risk := "High"; color := "#d9534f";
       icon := Some "https://cdn-icons-png.flaticon.com/512/3460/3460996.png";
       desc := "Knives of any length are prohibited in carry-on." |} /\
  threat_lookup "Umbrella" = unknown_info.
Proof.
  split.
  - apply (threat_lookup_total "Knife"). simpl. tauto.
  - apply (threat_lookup_total "Umbrella"). simpl.
    intros H. repeat (destruct H as [H|H]; [discriminate H|]). exact H.
Defined.

(** ** The order on floats *)

Lemma SFcompare_rank x y :
  PyFloat.isnan x = false -> PyFloat.isnan y = false ->
  SFcompare x y = Some (lex_compare (rank x) (rank y)).
Proof.
  destruct x as [sx|sx| |sx mx ex], y as [sy|sy| |sy my ey];
    simpl; intros Hx Hy; try discriminate;
    try (destruct sx); try (destruct sy); try reflexivity.
  unfold lex_compare; simpl. rewrite Z.compare_opp.
  rewrite (Z.compare_antisym ex ey).
  destruct (ex ?= ey); reflexivity.
Qed.

Lemma lex_compare_lt a b : lex_compare a b = Lt <-> lex_lt a b.
Proof.
  destruct a as [[a1 a2] a3], b as [[b1 b2] b3]. unfold lex_compare, lex_lt; simpl.
  destruct (Z.compare_spec a1 b1), (Z.compare_spec a2 b2), (Z.compare_spec a3 b3);
    split; intros Hc; try discriminate; try reflexivity; try lia.
Qed.

Lemma lex_compare_le a b : lex_compare a b <> Gt <-> lex_le a b.
Proof.
  destruct a as [[a1 a2] a3], b as [[b1 b2] b3]. unfold lex_compare, lex_le; simpl.
  destruct (Z.compare_spec a1 b1), (Z.compare_spec a2 b2), (Z.compare_spec a3 b3);
    split; intros Hc; try discriminate; try congruence; try lia.
Qed.

Lemma ltb_rank x y :
  PyFloat.isnan x = false -> PyFloat.isnan y = false ->
  PyFloat.ltb x y = true <-> lex_lt (rank x) (rank y).
Proof.
  intros Hx Hy. unfold PyFloat.ltb, SFltb. rewrite (SFcompare_rank _ _ Hx Hy).
  rewrite <- lex_compare_lt. destruct (lex_compare (rank x) (rank y)); split; congruence.
Qed.

Lemma leb_rank x y :
  PyFloat.isnan x = false -> PyFloat.isnan y = false ->
  PyFloat.leb x y = true <-> lex_le (rank x) (rank y).
Proof.
  intros Hx Hy. unfold PyFloat.leb, SFleb. rewrite (SFcompare_rank _ _ Hx Hy).
  rewrite <- lex_compare_le. destruct (lex_compare (rank x) (rank y)); split; congruence.
Qed.

Ltac lex_order :=
  repeat match goal with
         | p : (Z * Z * Z)%type |- _ => destruct p as [[? ?] ?]
         end;
  unfold lex_lt, lex_le in *; simpl in *; lia.

Lemma leb_refl x : PyFloat.isnan x = false -> PyFloat.leb x x = true.
Proof.
  intros Hx. apply (leb_rank _ _ Hx Hx). destruct (rank x) as [[? ?] ?]. lex_order.
Qed.

Lemma not_leb_ltb x y :
  PyFloat.isnan x = false -> PyFloat.isnan y = false ->
  PyFloat.leb x y = false -> PyFloat.ltb y x = true.
Proof.
  intros Hx Hy H. apply (ltb_rank _ _ Hy Hx).
  assert (~ lex_le (rank x) (rank y)) as Hn.
  { rewrite <- (leb_rank _ _ Hx Hy). congruence. }
  destruct (rank x) as [[? ?] ?], (rank y) as [[? ?] ?]. lex_order.
Qed.

Lemma leb_not_ltb x y : PyFloat.leb x y = true -> PyFloat.ltb y x = false.
Proof.
  destruct (PyFloat.isnan x) eqn:Hx.
  { destruct x; try discriminate; destruct y; intros; reflexivity. }
  destruct (PyFloat.isnan y) eqn:Hy.
  { destruct y; try discriminate; destruct x; intros; reflexivity. }
  intros H. apply (leb_rank _ _ Hx Hy) in H.
  destruct (PyFloat.ltb y x) eqn:Hlt; [|reflexivity].
  apply (ltb_rank _ _ Hy Hx) in Hlt.
  destruct (rank x) as [[? ?] ?], (rank y) as [[? ?] ?]. lex_order.
Qed.

Lemma ltb_leb x y :
  PyFloat.isnan x = false -> PyFloat.isnan y = false ->
  PyFloat.ltb x y = true -> PyFloat.leb x y = true.
Proof.
  intros Hx Hy H. apply (leb_rank _ _ Hx Hy). apply (ltb_rank _ _ Hx Hy) in H.
  destruct (rank x) as [[? ?] ?], (rank y) as [[? ?] ?]. lex_order.
Qed.

Lemma leb_ltb_trans x y z :
  PyFloat.isnan x = false -> PyFloat.isnan y = false -> PyFloat.isnan z = false ->
  PyFloat.leb x y = true -> PyFloat.ltb y z = true -> PyFloat.ltb x z = true.
Proof.
  intros Hx Hy Hz H1 H2. apply (ltb_rank _ _ Hx Hz).
  apply (leb_rank _ _ Hx Hy) in H1. apply (ltb_rank _ _ Hy Hz) in H2.
  destruct (rank x) as [[? ?] ?], (rank y) as [[? ?] ?], (rank z) as [[? ?] ?]. lex_order.
Qed.

Lemma ltb_leb_trans x y z :
  PyFloat.isnan x = false -> PyFloat.isnan y = false -> PyFloat.isnan z = false ->
  PyFloat.ltb x y = true -> PyFloat.leb y z = true -> PyFloat.ltb x z = true.
Proof.
  intros Hx Hy Hz H1 H2. apply (ltb_rank _ _ Hx Hz).
  apply (ltb_rank _ _ Hx Hy) in H1. apply (leb_rank _ _ Hy Hz) in H2.
  destruct (rank x) as [[? ?] ?], (rank y) as [[? ?] ?], (rank z) as [[? ?] ?]. lex_order.
Qed.

(** ** argmax *)

Lemma no_nan_nth l j x : no_nan l -> nth_error l j = Some x -> PyFloat.isnan x = false.
Proof.
  intros Hl Hj. apply nth_error_In in Hj.
  unfold no_nan in Hl. rewrite List.Forall_forall in Hl. auto.
Qed.

Lemma nth_error_snoc {A : Type} (pre : list A) (x : A) j y :
  nth_error (pre ++ [x]) j = Some y ->
  ((j < List.length pre)%nat /\ nth_error pre j = Some y) \/
  (j = List.length pre /\ y = x).
Proof.
  intros H. destruct (Nat.lt_ge_cases j (List.length pre)) as [Hlt|Hge].
  - left. split; [exact Hlt|]. rewrite nth_error_app1 in H; assumption.
  - right. rewrite nth_error_app2 in H by exact Hge.
    destruct (j - List.length pre)%nat as [|k] eqn:Hk; simpl in H.
    + split; [lia|congruence].
    + destruct k; discriminate.
Qed.

Lemma argmax_scan_first_maximum ip :
  forall pre mp max_ind,
    no_nan pre -> no_nan ip ->
    first_maximum pre max_ind mp ->
    exists top,
      first_maximum (pre ++ ip) (argmax_scan ip (List.length pre) mp max_ind) top.
Proof.
  induction ip as [|x rest IH]; intros pre mp max_ind Hpre Hip (Hnth & Hmax & Hfirst).
  - exists mp. rewrite app_nil_r. simpl. repeat split; assumption.
  - assert (PyFloat.isnan x = false) as Hx by (inversion Hip; assumption).
    assert (no_nan rest) as Hrest by (inversion Hip; assumption).
    assert (PyFloat.isnan mp = false) as Hmp by (apply (no_nan_nth pre max_ind); assumption).
    assert (no_nan (pre ++ [x])%list) as Hpre'.
    { unfold no_nan. apply Forall_app. split; [exact Hpre|]. constructor; [exact Hx|constructor]. }
    assert ((max_ind < List.length pre)%nat) as Hlt.
    { apply nth_error_Some. congruence. }
    replace (pre ++ x :: rest)%list with ((pre ++ [x]) ++ rest)%list
      by (rewrite <- app_assoc; reflexivity).
    simpl. destruct (PyFloat.leb x mp) eqn:Hle; simpl.
    + replace (S (List.length pre)) with (List.length (pre ++ [x])%list)
        by (rewrite length_app; simpl; lia).
      apply IH; try assumption. repeat split.
      * rewrite nth_error_app1 by exact Hlt. exact Hnth.
      * intros j y Hj. apply nth_error_snoc in Hj as [[_ Hj]|[_ ->]]; eauto.
      * intros j y Hjlt Hj. apply nth_error_snoc in Hj as [[_ Hj]|[-> _]]; [eauto|lia].
    + rewrite Hx.
      replace (S (List.length pre)) with (List.length (pre ++ [x])%list)
        by (rewrite length_app; simpl; lia).
      assert (PyFloat.ltb mp x = true) as Hmpx by (apply not_leb_ltb; assumption).
      apply IH; try assumption. repeat split.
      * rewrite nth_error_app2 by lia. rewrite Nat.sub_diag. reflexivity.
      * intros j y Hj. apply nth_error_snoc in Hj as [[_ Hj]|[_ ->]].
        -- assert (PyFloat.isnan y = false) as Hy by (apply (no_nan_nth pre j); assumption).
           apply ltb_leb; try assumption.
           apply (leb_ltb_trans y mp x); eauto.
        -- apply leb_refl. exact Hx.
      * intros j y Hjlt Hj. apply nth_error_snoc in Hj as [[_ Hj]|[-> _]]; [|lia].
        assert (PyFloat.isnan y = false) as Hy by (apply (no_nan_nth pre j); assumption).
        apply (leb_ltb_trans y mp x); eauto.
Qed.

Lemma np_argmax_first_maximum probs :
  probs <> [] -> no_nan probs ->
  exists idx top, np_argmax probs = Ok idx /\ first_maximum probs idx top.
Proof.
  destruct probs as [|x rest]; [congruence|]. intros _ Hnn.
  assert (PyFloat.isnan x = false) as Hx by (inversion Hnn; assumption).
  assert (no_nan rest) as Hrest by (inversion Hnn; assumption).
  destruct (argmax_scan_first_maximum rest [x] x O) as [top Htop].
  - constructor; [exact Hx|constructor].
  - exact Hrest.
  - repeat split.
    + intros [|[|j]] y Hj; simpl in Hj; try discriminate.
      inversion Hj; subst. apply leb_refl. exact Hx.
    + intros j y Hj. lia.
  - exists (argmax_scan rest 1 x O), top. simpl. rewrite Hx. split; [reflexivity|exact Htop].
Qed.

(** ** Inference *)

Section Inference.

Context (fs : gmap string (list Byte.byte)) (PROJECT_ROOT : string).
Context (np_load : list Byte.byte -> result (list string)).

(** C1. Whenever the class names load, the input shape gives the model's
    height and width, the forward pass on the resized image yields a
    non-empty NaN-free vector [probs] and the class-name list covers it,
    [predict] returns [(label, confidence, probs)] where [confidence] is
    the entry at [top_idx], no entry of [probs] exceeds it, every entry
    before [top_idx] is strictly smaller (ties go to the lowest index),
    [label] is the cached clean class name at [top_idx], and the third
    component is [probs] itself. *)
Theorem predict_reports_first_maximum
    (interp : interpreter) (img img' : image) (st st' : caches)
    (class_names : list string) (height width : Z) (probs : list spec_float) :
  load_class_names fs PROJECT_ROOT np_load st = (Ok class_names, st') ->
  getitem (input_shape interp) 1 = Ok height ->
  getitem (input_shape interp) 2 = Ok width ->
  PIL.resize (PIL.convert img "RGB") (width, height) DEFAULT_FILTER = Ok img' ->
  getitem (forward interp img') 0 = Ok probs ->
  probs <> [] ->
  no_nan probs ->
  (List.length probs <= List.length class_names)%nat ->
  exists top_idx predicted_class confidence,
    predict fs PROJECT_ROOT np_load interp img st
      = (Ok (predicted_class, confidence, probs), st') /\
    nth_error probs top_idx = Some confidence /\
    nth_error class_names top_idx = Some predicted_class /\
    (forall j x, nth_error probs j = Some x -> PyFloat.leb x confidence = true) /\
    (forall j x, (j < top_idx)%nat -> nth_error probs j = Some x ->
                 PyFloat.ltb x confidence = true).
Proof.
  intros Hnames Hh Hw Hresize Hout Hne Hnn Hlen.
  destruct (np_argmax_first_maximum probs Hne Hnn) as (idx & top & Harg & Hnth & Hmax & Hfirst).
  assert ((idx < List.length class_names)%nat) as Hidx.
  { assert ((idx < List.length probs)%nat) by (apply nth_error_Some; congruence). lia. }
  destruct (nth_error class_names idx) as [label|] eqn:Hlabel;
    [|apply nth_error_None in Hlabel; lia].
  exists idx, label, top. repeat split; try assumption.
  unfold predict, mbind, lift, ret. rewrite Hnames, Hh, Hw, Hresize, Hout, Harg.
  unfold getitem. rewrite Hnth, Hlabel. reflexivity.
Qed.

End Inference.

Lemma predict_reports_first_maximum_witness :
  exists top_idx predicted_class confidence,
    predict Sample.disk Sample.root Sample.np_load Sample.interp
            (Decoded 0 "L" (640, 480)) cold
      = (Ok (predicted_class, confidence, Sample.probs), Sample.warm) /\
    nth_error Sample.probs top_idx = Some confidence /\
    nth_error Sample.names top_idx = Some predicted_class /\
    (forall j x, nth_error Sample.probs j = Some x -> PyFloat.leb x confidence = true) /\
    (forall j x, (j < top_idx)%nat -> nth_error Sample.probs j = Some x ->
                 PyFloat.ltb x confidence = true).
Proof.
  apply (predict_reports_first_maximum Sample.disk Sample.root Sample.np_load
           Sample.interp (Decoded 0 "L" (640, 480))
           (Resized (Converted (Decoded 0 "L" (640, 480)) "RGB") (224, 224) DEFAULT_FILTER)
           cold Sample.warm Sample.names 224 224 Sample.probs).
  - vm_compute. reflexivity.
  - reflexivity.
  - reflexivity.
  - reflexivity.
  - reflexivity.
  - discriminate.
  - repeat constructor.
  - vm_compute. lia.
Defined.

(** On equal maxima the lowest index is reported. *)
Example np_argmax_tie :
  np_argmax (map (fun n => PyFloat.literal n 100) [5; 40; 5; 40; 5; 5]%positive) = Ok 1%nat.
Proof. vm_compute. reflexivity. Qed.

Example predict_sample :
  fst (predict Sample.disk Sample.root Sample.np_load Sample.interp
         (Decoded 0 "L" (640, 480)) cold)
  = Ok ("Knife", PyFloat.literal 70 100, Sample.probs).
Proof. vm_compute. reflexivity. Qed.

(** ** Result card *)

(** The literal [0.30] is the binary64 value nearest to three tenths: its
    distance to [3/10] is at most half a unit in the last place. *)
Lemma lit_0_30_nearest :
  lit_0_30 = S754_finite false 5404319552844595 (-54) /\
  valid_binary PyFloat.prec PyFloat.emax lit_0_30 = true /\
  2 * Z.abs (10 * 5404319552844595 - 3 * 2 ^ 54) <= 10.
Proof. repeat split. vm_compute. discriminate. Qed.

(** *** Percentages of a confidence in the unit interval *)

Lemma iter_pos_invariant {A : Type} (P : A -> Prop) (f : A -> A) :
  (forall x, P x -> P (f x)) -> forall p x, P x -> P (SpecFloat.iter_pos f p x).
Proof.
  intros Hf p. induction p as [p IH|p IH|]; intros x Hx; simpl.
  - apply IH. apply IH. apply Hf. exact Hx.
  - apply IH. apply IH. exact Hx.
  - apply Hf. exact Hx.
Qed.

Lemma shr_1_bounds bound mrs :
  0 <= shr_m mrs <= bound -> 0 <= shr_m (shr_1 mrs) <= bound.
Proof.
  destruct mrs as [m r s]. simpl. intros Hm.
  destruct m as [|p|p]; simpl; [lia| |lia].
  destruct p; simpl; lia.
Qed.

(** A right shift keeps a non-negative mantissa non-negative and below
    its bound, and moves the exponent to [max e (e + n)]. *)
Lemma shr_bounds bound mrs e n :
  0 <= shr_m mrs <= bound ->
  0 <= shr_m (fst (shr mrs e n)) <= bound /\
  snd (shr mrs e n) = Z.max e (e + n).
Proof.
  intros Hm. unfold shr. destruct n as [|p|p]; simpl.
  - split; [exact Hm|lia].
  - split; [|lia].
    apply (iter_pos_invariant (fun x => 0 <= shr_m x <= bound)); [|exact Hm].
    intros x. apply shr_1_bounds.
  - split; [exact Hm|lia].
Qed.

Lemma round_nearest_even_bounds m l :
  0 <= m -> m <= round_nearest_even m l <= m + 1.
Proof.
  intros Hm. unfold round_nearest_even.
  destruct l as [|[]]; try destruct (Z.even m); lia.
Qed.

Lemma digits2_pos_size p : digits2_pos p = Pos.size p.
Proof. induction p; simpl; congruence. Qed.

Lemma digits2_pos_gt p : Zpos p < 2 ^ Zpos (digits2_pos p).
Proof.
  rewrite digits2_pos_size. pose proof (Pos.size_gt p) as H.
  rewrite <- Pos2Z.inj_pow. lia.
Qed.

Lemma digits2_pos_le p : 2 ^ Zpos (digits2_pos p) <= 2 * Zpos p.
Proof.
  rewrite digits2_pos_size. pose proof (Pos.size_le p) as H.
  rewrite <- Pos2Z.inj_pow. lia.
Qed.

Lemma Zdigits2_below m k : 0 <= m -> 0 <= k -> m < 2 ^ k -> Zdigits2 m <= k.
Proof.
  intros Hm Hk Hlt. destruct m as [|p|p]; simpl; [lia| |lia].
  destruct (Z_le_gt_dec (Zpos (digits2_pos p)) k) as [|Hgt]; [assumption|exfalso].
  pose proof (digits2_pos_le p) as Hle.
  assert (2 ^ (k + 1) <= 2 ^ Zpos (digits2_pos p)) as Hpow
    by (apply Z.pow_le_mono_r; lia).
  rewrite Z.pow_add_r in Hpow by lia. change (2 ^ 1) with 2 in Hpow. lia.
Qed.

Lemma Zdigits2_mul p q :
  Zdigits2 (Zpos (p * q)) <= Zpos (digits2_pos p) + Zpos (digits2_pos q).
Proof.
  apply Zdigits2_below; [lia|lia|].
  rewrite Z.pow_add_r by lia. rewrite Pos2Z.inj_mul.
  pose proof (digits2_pos_gt p). pose proof (digits2_pos_gt q). nia.
Qed.

(** Rounding an exact product of at most 106 bits with a non-positive
    exponent stays far below the overflow threshold: [round] accepts the
    result. *)
Lemma binary_round_aux_rounds s mx ex :
  0 < mx -> Zdigits2 mx <= 106 -> ex <= 0 ->
  exists width,
    PyRound.to_int (binary_round_aux PyFloat.prec PyFloat.emax s mx ex loc_Exact) = Ok width.
Proof.
  intros Hpos Hdig Hex. unfold binary_round_aux, shr_fexp, PyFloat.prec, PyFloat.emax.
  set (n1 := fexp 53 1024 (Zdigits2 mx + ex) - ex).
  destruct (shr_bounds mx (shr_record_of_loc mx loc_Exact) ex n1) as [Hm1 He1];
    [simpl; lia|].
  destruct (shr (shr_record_of_loc mx loc_Exact) ex n1) as [mrs' e'].
  simpl in Hm1, He1.
  set (m1 := round_nearest_even (shr_m mrs') (loc_of_shr_record mrs')).
  assert (0 <= m1 <= mx + 1) as Hm1b.
  { pose proof (round_nearest_even_bounds (shr_m mrs') (loc_of_shr_record mrs')).
    unfold m1. lia. }
  set (n2 := fexp 53 1024 (Zdigits2 m1 + e') - e').
  destruct (shr_bounds m1 (shr_record_of_loc m1 loc_Exact) e' n2) as [Hm2 He2];
    [simpl; lia|].
  destruct (shr (shr_record_of_loc m1 loc_Exact) e' n2) as [mrs'' e''].
  simpl in Hm2, He2.
  assert (Zdigits2 m1 <= 107) as Hd1.
  { apply Zdigits2_below; [lia|lia|].
    assert (mx < 2 ^ 106) as Hmx.
    { destruct mx as [|p|p]; [lia| |lia]. simpl in Hdig.
      pose proof (digits2_pos_gt p) as Hgt.
      assert (2 ^ Zpos (digits2_pos p) <= 2 ^ 106) by (apply Z.pow_le_mono_r; lia). lia. }
    change (2 ^ 107) with (2 * 2 ^ 106). lia. }
  assert (0 <= Zdigits2 mx) as Hd0 by (destruct mx; simpl; lia).
  assert (0 <= Zdigits2 m1) as Hd10 by (destruct m1; simpl; lia).
  assert (e'' <= 971) as Hbound.
  { subst n1 n2. unfold fexp, emin in He1, He2. lia. }
  destruct (shr_m mrs'') as [|p|p]; [simpl; eauto| |lia].
  change (1024 - 53) with 971.
  destruct (Z.leb_spec e'' 971); [simpl; eauto|lia].
Qed.

Lemma valid_binary_digits s m e :
  valid_binary PyFloat.prec PyFloat.emax (S754_finite s m e) = true ->
  Zpos (digits2_pos m) <= 53.
Proof.
  unfold valid_binary, bounded, canonical_mantissa, fexp, emin, PyFloat.prec, PyFloat.emax.
  intros H. apply andb_prop in H as [H _]. apply Z.eqb_eq in H. lia.
Qed.

Lemma leb_one_exponent m e :
  PyFloat.leb (S754_finite false m e) (PyFloat.of_int 1) = true -> e <= -52.
Proof.
  change (PyFloat.of_int 1) with (S754_finite false 4503599627370496 (-52)).
  unfold PyFloat.leb, SFleb, SFcompare. cbv beta iota.
  destruct (Z.compare_spec e (-52)); [lia|lia|discriminate].
Qed.

(** For every binary64 value [c] with [0 <= c <= 1], [round(c * 100)]
    returns: the product is neither NaN nor infinite. *)
Lemma unit_interval_percent_rounds (c : spec_float) :
  valid_binary PyFloat.prec PyFloat.emax c = true ->
  PyFloat.leb (PyFloat.of_int 0) c = true ->
  PyFloat.leb c (PyFloat.of_int 1) = true ->
  exists width, PyRound.to_int (times_100 c) = Ok width.
Proof.
  intros Hvalid H0 H1.
  destruct c as [s|s| |s m e].
  - vm_compute. eauto.
  - destruct s; [vm_compute in H0|vm_compute in H1]; discriminate.
  - vm_compute in H0. discriminate.
  - destruct s; [vm_compute in H0; discriminate|].
    unfold times_100, PyFloat.mul.
    change (PyFloat.of_int 100) with (S754_finite false 7036874417766400 (-46)).
    unfold SFmul.
    apply binary_round_aux_rounds; [lia| |].
    + pose proof (Zdigits2_mul m 7036874417766400) as Hd.
      pose proof (valid_binary_digits _ _ _ Hvalid).
      change (Zpos (digits2_pos 7036874417766400)) with 53 in Hd. lia.
    + apply leb_one_exponent in H1. lia.
Qed.

Section Rendering.

Context (fs : gmap string (list Byte.byte)) (PROJECT_ROOT : string).
Context (np_load : list Byte.byte -> result (list string)).
Context (np_argsort : list spec_float -> list nat).

(** C2. Take a call of [render_results] for which the class names load.
    When [round(confidence * 100)] raises (the product is NaN or
    infinite), the call raises that exception before anything is drawn.
    It does not raise for any binary64 confidence in [[0, 1]].  When it
    returns, the result card is drawn, and on that card: for
    [confidence < 0.30] the name is "Not Known", the risk text is
    "Unknown", the badge class is the Low-risk one and the description is
    the closest-guess sentence built from the predicted label; for
    [confidence >= 0.30] (equality included) the name is the predicted
    label and risk, badge class and description come from the label's
    catalog record or the Unknown fallback.  In both cases the predicted
    label and the confidence carried by the card are the arguments.  The
    call then returns that card with the probability table, or raises
    what building the table raises. *)
Theorem render_results_low_confidence
    (predicted_class : string) (confidence : spec_float) (probs : list spec_float)
    (st st' : caches) (class_names : list string) :
  load_class_names fs PROJECT_ROOT np_load st = (Ok class_names, st') ->
  (forall e, PyRound.to_int (times_100 confidence) = Raise e ->
     render_result_card fs PROJECT_ROOT np_load predicted_class confidence st
       = (Raise e, st') /\
     render_results fs PROJECT_ROOT np_load np_argsort predicted_class confidence probs st
       = (Raise e, st')) /\
  (valid_binary PyFloat.prec PyFloat.emax confidence = true ->
   PyFloat.leb (PyFloat.of_int 0) confidence = true ->
   PyFloat.leb confidence (PyFloat.of_int 1) = true ->
   exists width, PyRound.to_int (times_100 confidence) = Ok width) /\
  (forall width, PyRound.to_int (times_100 confidence) = Ok width ->
     exists card texts,
       render_result_card fs PROJECT_ROOT np_load predicted_class confidence st
         = (Ok (class_names, card, texts), st') /\
       render_results fs PROJECT_ROOT np_load np_argsort predicted_class confidence probs st
         = (match probability_rows np_argsort class_names probs with
            | Ok rows => Ok (card, texts, rows)
            | Raise e => Raise e
            end, st') /\
       card_predicted_class card = predicted_class /\
       card_confidence card = confidence /\
       (PyFloat.ltb confidence lit_0_30 = true ->
          display_name card = "Not Known" /\
          display_risk card = "Unknown" /\
          risk_class card = "risk-low" /\
          display_desc card =
            "The model is not confident enough. Closest guess: " +:+ predicted_class +:+ ".") /\
       (PyFloat.geb confidence lit_0_30 = true ->
          display_name card = predicted_class /\
          display_risk card = risk (threat_lookup predicted_class) /\
          risk_class card = "risk-" +:+ PyStr.lower (risk (threat_lookup predicted_class)) /\
          display_desc card = desc (threat_lookup predicted_class))).
Proof.
  intros Hload. split; [|split].
  - intros e He.
    unfold render_results, render_result_card, mbind, lift, ret, confidence_texts.
    rewrite Hload, He. simpl. split; reflexivity.
  - apply unit_interval_percent_rounds.
  - intros width Hwidth.
    exists (render_card predicted_class confidence),
           (PyRound.to_digits (times_100 confidence) 1, pretty width).
    split.
    { unfold render_result_card, mbind, lift, ret, confidence_texts.
      rewrite Hload, Hwidth. reflexivity. }
    split.
    { unfold render_results, render_result_card, mbind, lift, ret, confidence_texts.
      rewrite Hload, Hwidth. simpl.
      destruct (probability_rows np_argsort class_names probs); reflexivity. }
    unfold render_card.
    destruct (PyFloat.ltb confidence lit_0_30) eqn:Hlt; simpl.
    + split; [reflexivity|]. split; [reflexivity|]. split.
      * intros _. repeat split.
      * intros Hge. apply leb_not_ltb in Hge. congruence.
    + split; [reflexivity|]. split; [reflexivity|]. split.
      * discriminate.
      * intros _. repeat split.
Qed.

End Rendering.

Lemma render_results_low_confidence_witness :
  (exists card texts rows,
      render_results Sample.disk Sample.root Sample.np_load SampleTable.argsort
        "Knife" (PyFloat.literal 29 100) Sample.probs Sample.warm
        = (Ok (card, texts, rows), Sample.warm) /\
      display_name card = "Not Known" /\
      display_desc card = "The model is not confident enough. Closest guess: Knife.") /\
  (exists card texts rows,
      render_results Sample.disk Sample.root Sample.np_load SampleTable.argsort
        "Knife" (PyFloat.literal 30 100) Sample.probs Sample.warm
        = (Ok (card, texts, rows), Sample.warm) /\
      display_name card = "Knife" /\
      display_risk card = "High").
Proof.
  assert (exists rows,
            probability_rows SampleTable.argsort Sample.names Sample.probs = Ok rows)
    as [rows Hrows] by (vm_compute; eauto).
  split.
  - destruct (render_results_low_confidence Sample.disk Sample.root Sample.np_load
                SampleTable.argsort "Knife" (PyFloat.literal 29 100) Sample.probs
                Sample.warm Sample.warm Sample.names eq_refl)
      as (_ & _ & Hdrawn).
    destruct (Hdrawn 29 eq_refl) as (card & texts & _ & Hrun & _ & _ & Hlow & _).
    rewrite Hrows in Hrun.
    exists card, texts, rows. split; [exact Hrun|].
    destruct (Hlow eq_refl) as (Hname & _ & _ & Hdesc). split; [exact Hname|exact Hdesc].
  - destruct (render_results_low_confidence Sample.disk Sample.root Sample.np_load
                SampleTable.argsort "Knife" (PyFloat.literal 30 100) Sample.probs
                Sample.warm Sample.warm Sample.names eq_refl)
      as (_ & _ & Hdrawn).
    destruct (Hdrawn 30 eq_refl) as (card & texts & _ & Hrun & _ & _ & _ & Hhigh).
    rewrite Hrows in Hrun.
    exists card, texts, rows. split; [exact Hrun|].
    destruct (Hhigh eq_refl) as (Hname & Hrisk & _). split; [exact Hname|exact Hrisk].
Defined.

(** ** Conversion pipeline *)

Lemma split_rgba im :
  PIL.mode im = "RGBA" -> getitem (PIL.split im) 3 = Ok (Band im 3).
Proof. intros H. unfold PIL.split. rewrite H. reflexivity. Qed.

(** The claim as worded, for every mode with an alpha band, fails: a
    grayscale-with-alpha image sent to BMP is left as it is. *)
Lemma alpha_step_skips_LA :
  ~ (forall target_format out_image,
        str_in target_format ["JPEG"; "BMP"; "ICO"] = true ->
        mode_has_alpha (PIL.mode out_image) = true ->
        exists k, alpha_step target_format out_image = Ok (flattened_on_white out_image k)).
Proof.
  intros H.
  destruct (H "BMP" (Decoded 0 "LA" (100, 80)) eq_refl eq_refl) as [k Hk].
  vm_compute in Hk. discriminate Hk.
Qed.

(** C5 (amended). For a JPEG, BMP or ICO target an image in mode RGBA is
    pasted onto a new white RGB image of the same size with its fourth
    band, the alpha band, as the mask, and the result is an RGB image of
    that size; for a JPEG target an image whose mode is neither RGBA nor
    RGB, with or without alpha, is converted directly to RGB. *)
Theorem alpha_step_flattens_rgba (target_format : string) (out_image : image) :
  (str_in target_format ["JPEG"; "BMP"; "ICO"] = true ->
   PIL.mode out_image = "RGBA" ->
     alpha_step target_format out_image = Ok (flattened_on_white out_image 3) /\
     PIL.mode (flattened_on_white out_image 3) = "RGB" /\
     PIL.size (flattened_on_white out_image 3) = PIL.size out_image) /\
  (target_format = "JPEG" ->
   PIL.mode out_image <> "RGBA" ->
   PIL.mode out_image <> "RGB" ->
     alpha_step target_format out_image = Ok (PIL.convert out_image "RGB")).
Proof.
  split.
  - intros Hfmt Hmode. repeat split. unfold alpha_step.
    rewrite Hfmt, (split_rgba _ Hmode), Hmode. reflexivity.
  - intros -> Hrgba Hrgb. unfold alpha_step.
    apply String.eqb_neq in Hrgba, Hrgb. rewrite Hrgba, Hrgb. reflexivity.
Qed.

Lemma alpha_step_flattens_rgba_witness :
  alpha_step "ICO" (Decoded 0 "RGBA" (100, 80))
    = Ok (flattened_on_white (Decoded 0 "RGBA" (100, 80)) 3) /\
  alpha_step "JPEG" (Decoded 0 "LA" (100, 80))
    = Ok (PIL.convert (Decoded 0 "LA" (100, 80)) "RGB").
Proof.
  split.
  - apply (alpha_step_flattens_rgba "ICO" (Decoded 0 "RGBA" (100, 80))); reflexivity.
  - apply (alpha_step_flattens_rgba "JPEG" (Decoded 0 "LA" (100, 80)));
      [reflexivity | discriminate | discriminate].
Defined.

Lemma alpha_step_size target_format out_image :
  exists out, alpha_step target_format out_image = Ok out /\
              PIL.size out = PIL.size out_image.
Proof.
  unfold alpha_step.
  destruct (str_in target_format ["JPEG"; "BMP"; "ICO"]); simpl.
  - destruct (String.eqb_spec (PIL.mode out_image) "RGBA") as [Hm|Hm].
    + rewrite (split_rgba _ Hm). simpl. eauto.
    + destruct (String.eqb target_format "JPEG"); simpl;
        [destruct (String.eqb (PIL.mode out_image) "RGB"); simpl|]; eauto.
  - destruct (String.eqb target_format "JPEG"); simpl;
      [destruct (String.eqb (PIL.mode out_image) "RGB"); simpl|]; eauto.
Qed.

(** C9. Without a resize request and with a target other than ICO, the
    pipeline succeeds and the image handed to the encoder has the size of
    the uploaded image. *)
Theorem convert_image_keeps_size
    (conv_image : image) (target_format : string) (new_w new_h : Z) :
  target_format <> "ICO" ->
  exists out_image,
    convert_image conv_image target_format false new_w new_h = Ok out_image /\
    PIL.size out_image = PIL.size conv_image.
Proof.
  intros Hico. unfold convert_image, resize_step. simpl.
  destruct (alpha_step_size target_format conv_image) as (out & Hout & Hsize).
  rewrite Hout. simpl. unfold ico_step.
  apply String.eqb_neq in Hico. rewrite Hico. eauto.
Qed.

Lemma convert_image_keeps_size_witness :
  exists out_image,
    convert_image (Decoded 0 "RGBA" (100, 80)) "JPEG" false 100 80 = Ok out_image /\
    PIL.size out_image = (100, 80).
Proof.
  apply (convert_image_keeps_size (Decoded 0 "RGBA" (100, 80)) "JPEG" 100 80).
  discriminate.
Defined.

(** An ICO target leaves an image of at most 256 by 256 pixels alone. *)
Lemma ico_step_small out_image :
  fst (PIL.size out_image) <= 256 -> snd (PIL.size out_image) <= 256 ->
  ico_step "ICO" out_image = Ok out_image.
Proof.
  intros Hw Hh. unfold ico_step. simpl.
  destruct (Z.ltb_spec 256 (Z.max (fst (PIL.size out_image)) (snd (PIL.size out_image))));
    [lia|reflexivity].
Qed.

Example ico_step_512_256 :
  convert_image (Decoded 0 "RGB" (512, 256)) "ICO" false 512 256
  = Ok (Resized (Decoded 0 "RGB" (512, 256)) (256, 128) LANCZOS).
Proof. vm_compute. reflexivity. Qed.

(** The scale factor for a 322-pixel side: [256.0 / 322] rounds down, and
    the product with 322 is the float just below 256. *)
Example ico_ratio_322 :
  PyFloat.mul (PyFloat.of_int 322) (PyFloat.div lit_256_0 (PyFloat.of_int 322))
  = S754_finite false 9007199254740991 (-45).
Proof. vm_compute. reflexivity. Qed.

(** C6. On a 322 by 322 image the ICO step computes the new side as
    [int(322 * (256.0 / 322))], which is 255: the longer side of the
    result is 255 pixels, not 256. *)
Theorem ico_step_322_yields_255 :
  convert_image (Decoded 0 "RGB" (322, 322)) "ICO" false 322 322
    = Ok (Resized (Decoded 0 "RGB" (322, 322)) (255, 255) LANCZOS) /\
  (forall out_image,
      convert_image (Decoded 0 "RGB" (322, 322)) "ICO" false 322 322 = Ok out_image ->
      Z.max (fst (PIL.size out_image)) (snd (PIL.size out_image)) = 255).
Proof.
  assert (convert_image (Decoded 0 "RGB" (322, 322)) "ICO" false 322 322
          = Ok (Resized (Decoded 0 "RGB" (322, 322)) (255, 255) LANCZOS)) as H
    by (vm_compute; reflexivity).
  split; [exact H|]. intros out_image Hout. rewrite H in Hout.
  inversion Hout; subst. reflexivity.
Qed.

(** ** Download name *)

Lemma contains_append c a b :
  PyStr.contains c (a +:+ b) = PyStr.contains c a || PyStr.contains c b.
Proof.
  induction a as [|d rest IH]; simpl; [reflexivity|].
  rewrite IH. apply orb_assoc.
Qed.

Lemma length_append a b :
  String.length (a +:+ b) = (String.length a + String.length b)%nat.
Proof. induction a as [|d rest IH]; simpl; [reflexivity|]. rewrite IH. reflexivity. Qed.

Lemma split_all_no_sep sep s :
  PyStr.contains sep s = false -> PyStr.split_all sep s = [s].
Proof.
  intros H. unfold PyStr.split_all.
  destruct (String.length s); simpl; [reflexivity|].
  rewrite (partition_first_absent _ _ H). reflexivity.
Qed.

Lemma rfind_from_absent c s i found :
  PyStr.contains c s = false -> PyStr.rfind_from c s i found = found.
Proof.
  revert i found. induction s as [|d rest IH]; simpl; intros i found H; [reflexivity|].
  apply orb_false_iff in H as [Hd Hrest]. rewrite Hd. apply IH. exact Hrest.
Qed.

Lemma rfind_from_append c a b i found :
  PyStr.rfind_from c (a +:+ b) i found
  = PyStr.rfind_from c b (i + PyStr.len a) (PyStr.rfind_from c a i found).
Proof.
  revert i found. induction a as [|d rest IH]; simpl; intros i found.
  - unfold PyStr.len. simpl. rewrite Z.add_0_r. reflexivity.
  - rewrite IH. f_equal. unfold PyStr.len. simpl String.length. lia.
Qed.

Lemma rfind_last_dot base suffix :
  PyStr.contains "." suffix = false ->
  PyStr.rfind "." (base +:+ "." +:+ suffix) = PyStr.len base.
Proof.
  intros H. unfold PyStr.rfind. rewrite rfind_from_append. simpl.
  rewrite (rfind_from_absent _ _ _ _ H). lia.
Qed.

Lemma slice_to_prefix base rest :
  PyStr.slice_to (PyStr.len base) (base +:+ rest) = base.
Proof.
  unfold PyStr.slice_to, PyStr.len. rewrite Nat2Z.id.
  induction base as [|d tl IH]; simpl.
  - destruct rest; reflexivity.
  - rewrite IH. reflexivity.
Qed.

Lemma name_plain s :
  PyStr.contains "/" s = false -> s <> "." -> PyPath.name s = s.
Proof.
  intros Hs Hdot. unfold PyPath.name. rewrite (split_all_no_sep _ _ Hs). simpl.
  unfold PyPath.is_component.
  destruct (String.eqb_spec s EmptyString) as [->|_]; [reflexivity|].
  destruct (String.eqb_spec s ".") as [->|_]; [contradiction|reflexivity].
Qed.

Lemma stem_last_suffix base suffix :
  base <> EmptyString -> suffix <> EmptyString ->
  PyStr.contains "." suffix = false ->
  PyStr.contains "/" base = false -> PyStr.contains "/" suffix = false ->
  PyPath.stem (base +:+ "." +:+ suffix) = base.
Proof.
  intros Hbase Hsuffix Hdot Hb Hs. unfold PyPath.stem.
  rewrite name_plain.
  - rewrite (rfind_last_dot _ _ Hdot).
    assert (0 < PyStr.len base) as Hpos.
    { unfold PyStr.len. destruct base; [contradiction|]. simpl String.length. lia. }
    assert (PyStr.len base < PyStr.len (base +:+ "." +:+ suffix) - 1) as Hend.
    { unfold PyStr.len. rewrite !length_append. simpl String.length.
      destruct suffix; [contradiction|]. simpl String.length. lia. }
    apply Z.ltb_lt in Hpos, Hend. rewrite Hpos, Hend. simpl.
    apply slice_to_prefix.
  - rewrite !contains_append, Hb, Hs. reflexivity.
  - intros Heq. apply (f_equal String.length) in Heq.
    rewrite !length_append in Heq. simpl in Heq.
    destruct base; [contradiction|]. simpl in Heq. lia.
Qed.

Lemma stem_no_suffix file_name :
  PyStr.contains "." file_name = false -> PyStr.contains "/" file_name = false ->
  PyPath.stem file_name = file_name.
Proof.
  intros Hdot Hs. unfold PyPath.stem. rewrite name_plain.
  - unfold PyStr.rfind. rewrite (rfind_from_absent _ _ _ _ Hdot). reflexivity.
  - exact Hs.
  - intros ->. discriminate Hdot.
Qed.

(** The claim as worded, with the stem cut at the first dot, fails on a
    name with two dots. *)
Lemma output_name_not_first_dot :
  ~ (forall target_format fmt_info file_name,
        FORMAT_OPTIONS !! target_format = Some fmt_info ->
        output_name file_name fmt_info
        = stem_before_first_dot file_name +:+ "_converted." +:+ ext fmt_info).
Proof.
  intros H.
  specialize (H "WEBP" {| ext := "webp"; mime := "image/webp"; pillow := "WEBP" |}
                "scan.v2.png" eq_refl).
  vm_compute in H. discriminate H.
Qed.

(** C7 (amended). For a format of the table, the extension is the one
    the table lists (PNG png, JPEG jpg, BMP bmp, GIF gif, TIFF tiff,
    WEBP webp, ICO ico) and the download name is the stem of the original
    name, then "_converted.", then that extension.  The stem drops the
    last suffix only: for a name [base.suffix] without directory separator
    whose [suffix] is non-empty and dot-free and whose [base] is
    non-empty, the stem is [base], dots inside [base] included; a name
    without a dot is its own stem.  "scan01.PNG" converted to WEBP is
    offered as "scan01_converted.webp". *)
Theorem output_name_last_suffix (target_format : string) (fmt_info : format_info) :
  FORMAT_OPTIONS !! target_format = Some fmt_info ->
  In (target_format, ext fmt_info)
     [("PNG", "png"); ("JPEG", "jpg"); ("BMP", "bmp"); ("GIF", "gif");
      ("TIFF", "tiff"); ("WEBP", "webp"); ("ICO", "ico")] /\
  (forall file_name,
      output_name file_name fmt_info
      = PyPath.stem file_name +:+ "_converted." +:+ ext fmt_info) /\
  (forall base suffix,
      base <> EmptyString -> suffix <> EmptyString ->
      PyStr.contains "." suffix = false ->
      PyStr.contains "/" base = false -> PyStr.contains "/" suffix = false ->
      output_name (base +:+ "." +:+ suffix) fmt_info
      = base +:+ "_converted." +:+ ext fmt_info) /\
  (forall file_name,
      PyStr.contains "." file_name = false -> PyStr.contains "/" file_name = false ->
      output_name file_name fmt_info = file_name +:+ "_converted." +:+ ext fmt_info) /\
  (target_format = "WEBP" -> output_name "scan01.PNG" fmt_info = "scan01_converted.webp").
Proof.
  intros Hfmt.
  assert (In (target_format, fmt_info) FORMAT_OPTIONS_items) as Hin.
  { apply list_elem_of_In. apply elem_of_list_to_map_2. exact Hfmt. }
  split; [|split; [|split; [|split]]].
  - simpl in Hin.
    repeat (destruct Hin as [Heq|Hin]; [inversion Heq; subst; simpl; tauto|]).
    contradiction.
  - reflexivity.
  - intros base suffix Hb Hs Hdot Hsb Hss. unfold output_name.
    rewrite stem_last_suffix by assumption. reflexivity.
  - intros file_name Hdot Hs. unfold output_name.
    rewrite stem_no_suffix by assumption. reflexivity.
  - intros ->. vm_compute in Hfmt. inversion Hfmt; subst. reflexivity.
Qed.

Lemma output_name_last_suffix_witness :
  output_name ("scan.v2" +:+ "." +:+ "png")
    {| ext := "webp"; mime := "image/webp"; pillow := "WEBP" |}
  = "scan.v2" +:+ "_converted." +:+ "webp".
Proof.
  apply (output_name_last_suffix "WEBP"
           {| ext := "webp"; mime := "image/webp"; pillow := "WEBP" |});
    [vm_compute; reflexivity | discriminate | discriminate
     | reflexivity | reflexivity | reflexivity].
Defined.

(** ** File-size text *)

Lemma div_half_even_nearest num den :
  0 < den -> 2 * Z.abs (num - den * PyNum.div_half_even num den) <= den.
Proof.
  intros Hden. unfold PyNum.div_half_even.
  pose proof (Z.div_mod num den ltac:(lia)) as Hdm.
  pose proof (Z.mod_pos_bound num den Hden) as Hr.
  destruct (Z.ltb_spec (2 * (num mod den)) den);
    [|destruct (Z.ltb_spec den (2 * (num mod den))); [|destruct (Z.even (num / den))]];
    lia.
Qed.

Ltac digit_cases d :=
  let H := fresh in
  assert (d = 0 \/ d = 1 \/ d = 2 \/ d = 3 \/ d = 4 \/
          d = 5 \/ d = 6 \/ d = 7 \/ d = 8 \/ d = 9) as H by lia;
  repeat (destruct H as [H|H]; [rewrite H; try reflexivity|]);
  try (rewrite H; reflexivity).

(** One fractional digit is always printed. *)
Lemma str_scaled_tenths t :
  PyNum.str_scaled t 1
  = pretty (t / 10) +:+ "." +:+ String (PyNum.digit (t mod 10)) EmptyString.
Proof.
  unfold PyNum.str_scaled, PyNum.frac_digits.
  change (10 ^ Z.of_nat 1) with 10. change (10 ^ Z.of_nat 0) with 1.
  rewrite Z.div_1_r.
  pose proof (Z.mod_pos_bound t 10 ltac:(lia)) as Hr.
  remember (t mod 10) as d eqn:Hd. clear Hd.
  digit_cases d.
Qed.

(** Of two fractional digits the second is dropped when it is zero. *)
Lemma str_scaled_hundredths h :
  PyNum.str_scaled h 2
  = pretty (h / 100) +:+ "." +:+
    (if h mod 10 =? 0
     then String (PyNum.digit (h / 10 mod 10)) EmptyString
     else String (PyNum.digit (h / 10 mod 10))
            (String (PyNum.digit (h mod 10)) EmptyString)).
Proof.
  unfold PyNum.str_scaled, PyNum.frac_digits.
  change (10 ^ Z.of_nat 2) with 100. change (10 ^ Z.of_nat 1) with 10.
  change (10 ^ Z.of_nat 0) with 1.
  rewrite Z.div_1_r.
  assert (h mod 100 / 10 = h / 10 mod 10) as ->.
  { pose proof (Z.div_mod h 100 ltac:(lia)). pose proof (Z.mod_pos_bound h 100 ltac:(lia)).
    pose proof (Z.div_mod (h / 10) 10 ltac:(lia)).
    pose proof (Z.mod_pos_bound (h / 10) 10 ltac:(lia)).
    pose proof (Z.div_mod h 10 ltac:(lia)). pose proof (Z.mod_pos_bound h 10 ltac:(lia)).
    pose proof (Z.div_mod (h mod 100) 10 ltac:(lia)).
    pose proof (Z.mod_pos_bound (h mod 100) 10 ltac:(lia)).
    lia. }
  assert (h mod 100 mod 10 = h mod 10) as ->.
  { pose proof (Z.div_mod h 100 ltac:(lia)). pose proof (Z.mod_pos_bound h 100 ltac:(lia)).
    pose proof (Z.div_mod h 10 ltac:(lia)). pose proof (Z.mod_pos_bound h 10 ltac:(lia)).
    pose proof (Z.div_mod (h mod 100) 10 ltac:(lia)).
    pose proof (Z.mod_pos_bound (h mod 100) 10 ltac:(lia)).
    lia. }
  pose proof (Z.mod_pos_bound (h / 10) 10 ltac:(lia)) as Hr1.
  pose proof (Z.mod_pos_bound h 10 ltac:(lia)) as Hr2.
  remember (h / 10 mod 10) as d1 eqn:Hd1. clear Hd1.
  remember (h mod 10) as d2 eqn:Hd2. clear Hd2.
  assert (d2 = 0 \/ d2 = 1 \/ d2 = 2 \/ d2 = 3 \/ d2 = 4 \/
          d2 = 5 \/ d2 = 6 \/ d2 = 7 \/ d2 = 8 \/ d2 = 9) as H2 by lia.
  repeat (destruct H2 as [H2|H2]; [rewrite H2; clear H2 Hr2; digit_cases d1|]).
  rewrite H2; clear H2 Hr2; digit_cases d1.
Qed.

(** C8. For a byte count [n] (below [2^53], where the quotients are
    exact): under 1024 the text is the decimal count and " B"; under
    1,048,576 it is [n/1024] to one decimal and " KB", that is, the
    integer part, a point and one digit of the number of tenths nearest
    to [n/1024]; otherwise it is [n/1,048,576] to two decimals and " MB",
    printed from the nearest number of hundredths with a trailing zero
    dropped.  500, 2048 and 3,145,728 bytes read "500 B", "2.0 KB" and
    "3.0 MB". *)
Theorem format_file_size_spec (file_size : Z) :
  0 <= file_size < 2 ^ 53 ->
  (file_size < 1024 -> format_file_size file_size = pretty file_size +:+ " B") /\
  (1024 <= file_size < 1048576 ->
     exists tenths,
       2 * Z.abs (10 * file_size - 1024 * tenths) <= 1024 /\
       format_file_size file_size
       = (pretty (tenths / 10) +:+ "." +:+
          String (PyNum.digit (tenths mod 10)) EmptyString) +:+ " KB") /\
  (1048576 <= file_size ->
     exists hundredths,
       2 * Z.abs (100 * file_size - 1048576 * hundredths) <= 1048576 /\
       format_file_size file_size
       = (pretty (hundredths / 100) +:+ "." +:+
          (if hundredths mod 10 =? 0
           then String (PyNum.digit (hundredths / 10 mod 10)) EmptyString
           else String (PyNum.digit (hundredths / 10 mod 10))
                  (String (PyNum.digit (hundredths mod 10)) EmptyString))) +:+ " MB") /\
  format_file_size 500 = "500 B" /\
  format_file_size 2048 = "2.0 KB" /\
  format_file_size 3145728 = "3.0 MB".
Proof.
  intros Hrange. unfold format_file_size.
  change (1024 * 1024) with 1048576.
  split; [|split; [|split; [|repeat split; vm_compute; reflexivity]]].
  - intros Hlt. apply Z.ltb_lt in Hlt. rewrite Hlt. reflexivity.
  - intros [Hlo Hhi].
    destruct (Z.ltb_spec file_size 1024); [lia|].
    destruct (Z.ltb_spec file_size 1048576); [|lia].
    exists (PyNum.round_ratio file_size 1024 1). split.
    + pose proof (div_half_even_nearest (file_size * 10) 1024 ltac:(lia)) as Hn.
      unfold PyNum.round_ratio. change (10 ^ Z.of_nat 1) with 10. lia.
    + unfold PyNum.str_round_ratio. rewrite str_scaled_tenths. reflexivity.
  - intros Hlo.
    destruct (Z.ltb_spec file_size 1024); [lia|].
    destruct (Z.ltb_spec file_size 1048576); [lia|].
    exists (PyNum.round_ratio file_size 1048576 2). split.
    + pose proof (div_half_even_nearest (file_size * 100) 1048576 ltac:(lia)) as Hn.
      unfold PyNum.round_ratio. change (10 ^ Z.of_nat 2) with 100. lia.
    + unfold PyNum.str_round_ratio. rewrite str_scaled_hundredths. reflexivity.
Qed.

Lemma format_file_size_spec_witness :
  format_file_size 1023 = pretty 1023 +:+ " B" /\
  (exists tenths,
      2 * Z.abs (10 * 1280 - 1024 * tenths) <= 1024 /\
      format_file_size 1280
      = (pretty (tenths / 10) +:+ "." +:+
         String (PyNum.digit (tenths mod 10)) EmptyString) +:+ " KB").
Proof.
  split.
  - apply (format_file_size_spec 1023); lia.
  - apply (format_file_size_spec 1280); lia.
Defined.

(** The quotients of the three examples are exact in binary64. *)
Example file_size_quotients_exact :
  PyFloat.div (PyFloat.of_int 2048) (PyFloat.of_int 1024) = PyFloat.of_int 2 /\
  PyFloat.div (PyFloat.of_int 3145728) (PyFloat.of_int (1024 * 1024)) = PyFloat.of_int 3 /\
  PyFloat.div (PyFloat.of_int 1280) (PyFloat.of_int 1024) = PyFloat.literal 125 100.
Proof. vm_compute. repeat split. Qed.

(** A tie between two tenths goes to the even one: 1280 bytes are 1.25
    kilobytes and read "1.2 KB". *)
Example format_file_size_tie : format_file_size 1280 = "1.2 KB".
Proof. vm_compute. reflexivity. Qed.

(** ** Background image and start-up files *)

Section Startup.

Context (fs : gmap string (list Byte.byte)) (PROJECT_ROOT : string).
Context (Image_open : list Byte.byte -> result image).
Context (Image_save : image -> string -> option Z -> result (list Byte.byte)).
Context (np_load : list Byte.byte -> result (list string)).
Context (tflite_Interpreter : list Byte.byte -> result interpreter).
Context (np_argsort : list spec_float -> list nat).

Lemma main_unfold scan_file inputs st :
  main fs PROJECT_ROOT Image_open Image_save np_load tflite_Interpreter np_argsort
       scan_file inputs st =
  match scan_tab fs PROJECT_ROOT Image_open np_load tflite_Interpreter np_argsort scan_file st with
  | (Ok scan, st') =>
      match render_image_converter Image_open Image_save inputs with
      | Ok conv =>
          (Ok {| page_background := get_bg_css fs PROJECT_ROOT;
                 page_scan := scan; page_conversion := conv |}, st')
      | Raise e => (Raise e, st')
      end
  | (Raise e, st') => (Raise e, st')
  end.
Proof.
  unfold main, mbind, lift, ret.
  destruct (scan_tab fs PROJECT_ROOT Image_open np_load tflite_Interpreter np_argsort scan_file st)
    as [[scan|e] st']; [|reflexivity].
  destruct (render_image_converter Image_open Image_save inputs); reflexivity.
Qed.

(** C10. When the background file is absent, [get_bg_css] is the empty
    string and [main] goes on: with nothing uploaded it returns the page
    with an empty background; whenever it returns a page the background is
    empty; and when it raises, the exception comes from the scan tab or
    from the converter.  The two start-up files differ: with an uploaded
    scan and nothing cached, an absent model file makes [main] raise, and
    so does an absent class-name file once the model is loaded. *)
Theorem missing_background_is_not_fatal :
  fs !! BG_IMAGE_PATH PROJECT_ROOT = None ->
  get_bg_css fs PROJECT_ROOT = EmptyString /\
  (forall inputs st,
      conv_file inputs = None ->
      main fs PROJECT_ROOT Image_open Image_save np_load tflite_Interpreter np_argsort
           None inputs st
      = (Ok {| page_background := EmptyString; page_scan := None;
               page_conversion := None |}, st)) /\
  (forall scan_file inputs st p st',
      main fs PROJECT_ROOT Image_open Image_save np_load tflite_Interpreter np_argsort
           scan_file inputs st = (Ok p, st') ->
      page_background p = EmptyString) /\
  (forall scan_file inputs st e st',
      main fs PROJECT_ROOT Image_open Image_save np_load tflite_Interpreter np_argsort
           scan_file inputs st = (Raise e, st') ->
      fst (scan_tab fs PROJECT_ROOT Image_open np_load tflite_Interpreter np_argsort scan_file st)
        = Raise e \/
      render_image_converter Image_open Image_save inputs = Raise e) /\
  (forall file img inputs st,
      Image_open (file_bytes file) = Ok img ->
      model_cache st = None ->
      fs !! MODEL_PATH PROJECT_ROOT = None ->
      fst (main fs PROJECT_ROOT Image_open Image_save np_load tflite_Interpreter np_argsort
             (Some file) inputs st) = Raise ValueError) /\
  (forall file img interp inputs st,
      Image_open (file_bytes file) = Ok img ->
      model_cache st = Some interp ->
      class_names_cache st = None ->
      fs !! CLASS_NAMES_PATH PROJECT_ROOT = None ->
      fst (main fs PROJECT_ROOT Image_open Image_save np_load tflite_Interpreter np_argsort
             (Some file) inputs st) = Raise FileNotFoundError).
Proof.
  intros Hbg.
  assert (get_bg_css fs PROJECT_ROOT = EmptyString) as Hcss.
  { unfold get_bg_css. rewrite Hbg. reflexivity. }
  split; [exact Hcss|]. split; [|split; [|split; [|split]]].
  - intros inputs st Hnone. rewrite main_unfold, Hcss.
    unfold scan_tab, render_image_converter, ret.
    rewrite Hnone. reflexivity.
  - intros scan_file inputs st p st' Hrun. rewrite main_unfold, Hcss in Hrun.
    destruct (scan_tab fs PROJECT_ROOT Image_open np_load tflite_Interpreter np_argsort scan_file st)
      as [[scan|e] st1]; [|discriminate].
    destruct (render_image_converter Image_open Image_save inputs); [|discriminate].
    inversion Hrun; subst. reflexivity.
  - intros scan_file inputs st e st' Hrun. rewrite main_unfold in Hrun.
    destruct (scan_tab fs PROJECT_ROOT Image_open np_load tflite_Interpreter np_argsort scan_file st)
      as [[scan|e1] st1]; simpl.
    + destruct (render_image_converter Image_open Image_save inputs); [discriminate|].
      inversion Hrun; subst. right. reflexivity.
    + inversion Hrun; subst. left. reflexivity.
  - intros file img inputs st Himg Hcache Hmodel. rewrite main_unfold.
    unfold scan_tab, mbind, lift, load_model.
    rewrite Himg, Hcache, Hmodel. reflexivity.
  - intros file img interp inputs st Himg Hcache Hnames Hfile. rewrite main_unfold.
    unfold scan_tab, predict, mbind, lift, load_model, load_class_names.
    rewrite Himg, Hcache, Hnames, Hfile. reflexivity.
Qed.

End Startup.

Lemma missing_background_is_not_fatal_witness :
  get_bg_css Sample.disk Sample.root = EmptyString /\
  main Sample.disk Sample.root Sample.Image_open Sample.Image_save
       Sample.np_load Sample.tflite_Interpreter SampleTable.argsort
       None Sample.no_conversion cold
  = (Ok {| page_background := EmptyString; page_scan := None;
           page_conversion := None |}, cold).
Proof.
  destruct (missing_background_is_not_fatal Sample.disk Sample.root
              Sample.Image_open Sample.Image_save Sample.np_load
              Sample.tflite_Interpreter SampleTable.argsort) as (Hcss & Hidle & _).
  - vm_compute. reflexivity.
  - split; [exact Hcss|]. apply Hidle. reflexivity.
Defined.

(** A full render cycle on the sample disk: the scan is classified, the
    card reads 70.0 % with a bar of width 70, the table has one row per
    class with the winner first, and the page carries no background. *)
Example main_sample :
  exists rows,
    fst (main Sample.disk Sample.root Sample.Image_open Sample.Image_save
           Sample.np_load Sample.tflite_Interpreter SampleTable.argsort
           (Some Sample.scan) Sample.no_conversion cold)
    = Ok {| page_background := EmptyString;
            page_scan := Some (render_card "Knife" (PyFloat.literal 70 100),
                               (PyFloat.of_int 70, "70"), rows);
            page_conversion := None |} /\
    List.length rows = 7%nat /\
    option_map row_name (List.head rows) = Some "Knife" /\
    option_map row_bar_w (List.head rows) = Some 70.
Proof. eexists. vm_compute. repeat split. Qed.

(** With the background file present the style sheet embeds its base64
    text. *)
Example get_bg_css_present :
  get_bg_css {[ BG_IMAGE_PATH Sample.root := [Byte.x4d; Byte.x61; Byte.x6e] ]} Sample.root
  = bg_css_head +:+ "TWFu" +:+ bg_css_tail.
Proof. vm_compute. reflexivity. Qed.

(** Without the label file and with nothing cached the scan aborts. *)
Example main_without_class_names :
  fst (main {[ MODEL_PATH Sample.root := [Byte.x54] ]} Sample.root
         Sample.Image_open Sample.Image_save Sample.np_load Sample.tflite_Interpreter
         SampleTable.argsort (Some Sample.scan) Sample.no_conversion cold)
  = Raise FileNotFoundError.
Proof. vm_compute. reflexivity. Qed.

(** * Further properties of the module *)

(** ** The two caches *)

Lemma load_class_names_ok fs PROJECT_ROOT np_load st st' names :
  load_class_names fs PROJECT_ROOT np_load st = (Ok names, st') ->
  class_names_cache st' = Some names /\
  model_cache st' = model_cache st /\
  (class_names_cache st = None ->
     exists content raw_names,
       fs !! CLASS_NAMES_PATH PROJECT_ROOT = Some content /\
       np_load content = Ok raw_names /\
       names = map clean_class_name raw_names).
Proof.
  unfold load_class_names. intros H.
  destruct (class_names_cache st) as [cached|] eqn:Hc.
  - inversion H; subst. split; [exact Hc|]. split; [reflexivity|discriminate].
  - destruct (fs !! CLASS_NAMES_PATH PROJECT_ROOT) as [content|] eqn:Hf; [|discriminate].
    destruct (np_load content) as [raw|e] eqn:Hl; [|discriminate].
    inversion H; subst. simpl. split; [reflexivity|]. split; [reflexivity|].
    intros _. exists content, raw. repeat split; assumption.
Qed.

Lemma load_class_names_cached fs PROJECT_ROOT np_load st names :
  class_names_cache st = Some names ->
  load_class_names fs PROJECT_ROOT np_load st = (Ok names, st).
Proof. intros H. unfold load_class_names. rewrite H. reflexivity. Qed.

Lemma load_class_names_raise fs PROJECT_ROOT np_load st st' e :
  load_class_names fs PROJECT_ROOT np_load st = (Raise e, st') ->
  st' = st /\ class_names_cache st = None /\
  ((fs !! CLASS_NAMES_PATH PROJECT_ROOT = None /\ e = FileNotFoundError) \/
   (exists content, fs !! CLASS_NAMES_PATH PROJECT_ROOT = Some content /\
                    np_load content = Raise e)).
Proof.
  unfold load_class_names. intros H.
  destruct (class_names_cache st); [discriminate|].
  destruct (fs !! CLASS_NAMES_PATH PROJECT_ROOT) as [content|] eqn:Hf.
  - destruct (np_load content) as [raw|e0] eqn:Hl; [discriminate|].
    inversion H; subst. split; [reflexivity|]. split; [reflexivity|].
    right. exists content. split; [reflexivity|assumption].
  - inversion H; subst. split; [reflexivity|]. split; [reflexivity|].
    left. split; reflexivity.
Qed.

Lemma load_model_ok fs PROJECT_ROOT tflite_Interpreter st st' interp :
  load_model fs PROJECT_ROOT tflite_Interpreter st = (Ok interp, st') ->
  model_cache st' = Some interp /\
  class_names_cache st' = class_names_cache st /\
  (model_cache st = None ->
     exists content,
       fs !! MODEL_PATH PROJECT_ROOT = Some content /\
       tflite_Interpreter content = Ok interp).
Proof.
  unfold load_model. intros H.
  destruct (model_cache st) as [cached|] eqn:Hc.
  - inversion H; subst. split; [exact Hc|]. split; [reflexivity|discriminate].
  - destruct (fs !! MODEL_PATH PROJECT_ROOT) as [content|] eqn:Hf; [|discriminate].
    destruct (tflite_Interpreter content) as [i|e] eqn:Hl; [|discriminate].
    inversion H; subst. simpl. split; [reflexivity|]. split; [reflexivity|].
    intros _. exists content. split; [reflexivity|assumption].
Qed.

Lemma load_model_cached fs PROJECT_ROOT tflite_Interpreter st interp :
  model_cache st = Some interp ->
  load_model fs PROJECT_ROOT tflite_Interpreter st = (Ok interp, st).
Proof. intros H. unfold load_model. rewrite H. reflexivity. Qed.

Lemma load_model_raise fs PROJECT_ROOT tflite_Interpreter st st' e :
  load_model fs PROJECT_ROOT tflite_Interpreter st = (Raise e, st') ->
  st' = st /\ model_cache st = None /\
  ((fs !! MODEL_PATH PROJECT_ROOT = None /\ e = ValueError) \/
   (exists content, fs !! MODEL_PATH PROJECT_ROOT = Some content /\
                    tflite_Interpreter content = Raise e)).
Proof.
  unfold load_model. intros H.
  destruct (model_cache st); [discriminate|].
  destruct (fs !! MODEL_PATH PROJECT_ROOT) as [content|] eqn:Hf.
  - destruct (tflite_Interpreter content) as [i|e0] eqn:Hl; [discriminate|].
    inversion H; subst. split; [reflexivity|]. split; [reflexivity|].
    right. exists content. split; [reflexivity|assumption].
  - inversion H; subst. split; [reflexivity|]. split; [reflexivity|].
    left. split; reflexivity.
Qed.

(** X1. A successful [load_class_names] leaves the list in the cache and
    the model cache alone; from then on every call returns the same list
    without reading the disk, whatever the disk holds; and when the list
    was not cached before, it is the label file's entries cleaned one by
    one, in order. *)
Theorem load_class_names_memoized
    (fs : gmap string (list Byte.byte)) (PROJECT_ROOT : string)
    (np_load : list Byte.byte -> result (list string))
    (st st' : caches) (names : list string) :
  load_class_names fs PROJECT_ROOT np_load st = (Ok names, st') ->
  class_names_cache st' = Some names /\
  model_cache st' = model_cache st /\
  (forall fs2 root2 np_load2,
      load_class_names fs2 root2 np_load2 st' = (Ok names, st')) /\
  (class_names_cache st = None ->
     exists content raw_names,
       fs !! CLASS_NAMES_PATH PROJECT_ROOT = Some content /\
       np_load content = Ok raw_names /\
       names = map clean_class_name raw_names /\
       List.length names = List.length raw_names).
Proof.
  intros H. destruct (load_class_names_ok _ _ _ _ _ _ H) as (Hc & Hm & Hraw).
  split; [exact Hc|]. split; [exact Hm|]. split.
  - intros fs2 root2 np_load2. apply load_class_names_cached. exact Hc.
  - intros Hnone. destruct (Hraw Hnone) as (content & raw & Hf & Hl & ->).
    exists content, raw. rewrite length_map. repeat split; assumption.
Qed.

Lemma load_class_names_memoized_witness :
  class_names_cache Sample.warm = Some Sample.names /\
  load_class_names ∅ "/elsewhere" (fun _ => Raise OSError) Sample.warm
  = (Ok Sample.names, Sample.warm).
Proof.
  destruct (load_class_names_memoized Sample.disk Sample.root Sample.np_load
              cold Sample.warm Sample.names) as (Hcache & _ & Hagain & _).
  - vm_compute. reflexivity.
  - split; [exact Hcache|apply Hagain].
Defined.

(** X2. A successful [load_model] leaves the interpreter in the cache and
    the class-name cache alone, and every later call returns that same
    interpreter without reading the disk; when nothing was cached the
    interpreter is the one built from the model file. *)
Theorem load_model_memoized
    (fs : gmap string (list Byte.byte)) (PROJECT_ROOT : string)
    (tflite_Interpreter : list Byte.byte -> result interpreter)
    (st st' : caches) (interp : interpreter) :
  load_model fs PROJECT_ROOT tflite_Interpreter st = (Ok interp, st') ->
  model_cache st' = Some interp /\
  class_names_cache st' = class_names_cache st /\
  (forall fs2 root2 tflite2, load_model fs2 root2 tflite2 st' = (Ok interp, st')) /\
  (model_cache st = None ->
     exists content,
       fs !! MODEL_PATH PROJECT_ROOT = Some content /\
       tflite_Interpreter content = Ok interp).
Proof.
  intros H. destruct (load_model_ok _ _ _ _ _ _ H) as (Hc & Hn & Hfile).
  split; [exact Hc|]. split; [exact Hn|]. split; [|exact Hfile].
  intros fs2 root2 tflite2. apply load_model_cached. exact Hc.
Qed.

Lemma load_model_memoized_witness :
  load_model ∅ "/elsewhere" (fun _ => Raise OSError)
    {| model_cache := Some Sample.interp; class_names_cache := None |}
  = (Ok Sample.interp, {| model_cache := Some Sample.interp; class_names_cache := None |}).
Proof.
  destruct (load_model_memoized Sample.disk Sample.root Sample.tflite_Interpreter
              cold {| model_cache := Some Sample.interp; class_names_cache := None |}
              Sample.interp) as (_ & _ & Hagain & _).
  - vm_compute. reflexivity.
  - apply Hagain.
Defined.

(** X3. A load that raises stores nothing: both caches are as before, so
    the next render cycle tries the disk again.  The class-name load
    raises only when nothing is cached and the file is absent
    (FileNotFoundError) or unreadable; the model load likewise, with
    ValueError for an absent file. *)
Theorem failed_load_keeps_caches
    (fs : gmap string (list Byte.byte)) (PROJECT_ROOT : string)
    (np_load : list Byte.byte -> result (list string))
    (tflite_Interpreter : list Byte.byte -> result interpreter)
    (st : caches) :
  (forall e st',
      load_class_names fs PROJECT_ROOT np_load st = (Raise e, st') ->
      st' = st /\ class_names_cache st = None /\
      ((fs !! CLASS_NAMES_PATH PROJECT_ROOT = None /\ e = FileNotFoundError) \/
       (exists content, fs !! CLASS_NAMES_PATH PROJECT_ROOT = Some content /\
                        np_load content = Raise e))) /\
  (forall e st',
      load_model fs PROJECT_ROOT tflite_Interpreter st = (Raise e, st') ->
      st' = st /\ model_cache st = None /\
      ((fs !! MODEL_PATH PROJECT_ROOT = None /\ e = ValueError) \/
       (exists content, fs !! MODEL_PATH PROJECT_ROOT = Some content /\
                        tflite_Interpreter content = Raise e))).
Proof.
  split; intros e st' H.
  - apply (load_class_names_raise _ _ _ _ _ _ H).
  - apply (load_model_raise _ _ _ _ _ _ H).
Qed.

(** ** argmax and [predict] *)

Lemma argmax_scan_range ip :
  forall i mp max_ind,
    (max_ind < i)%nat -> (argmax_scan ip i mp max_ind < i + List.length ip)%nat.
Proof.
  induction ip as [|x rest IH]; intros i mp max_ind Hlt; simpl; [lia|].
  destruct (negb (PyFloat.leb x mp)).
  - destruct (PyFloat.isnan x); [lia|].
    specialize (IH (S i) x i ltac:(lia)). lia.
  - specialize (IH (S i) mp max_ind ltac:(lia)). lia.
Qed.

Lemma np_argmax_range a i :
  np_argmax a = Ok i -> exists x, nth_error a i = Some x.
Proof.
  destruct a as [|x rest]; [discriminate|]. simpl. intros H.
  assert ((i < List.length (x :: rest))%nat) as Hlt.
  { destruct (PyFloat.isnan x); inversion H; subst; simpl; [lia|].
    pose proof (argmax_scan_range rest 1 x O ltac:(lia)). lia. }
  destruct (nth_error (x :: rest) i) as [y|] eqn:Hy; [eauto|].
  apply nth_error_None in Hy. lia.
Qed.

(** X4. [np.argmax] raises ValueError on an empty array and on nothing
    else; on a non-empty array, NaN entries included, its index lies
    inside the array, so the read [probs[top_idx]] that follows in
    [predict] cannot raise. *)
Theorem np_argmax_in_range (a : list spec_float) :
  (a = [] /\ np_argmax a = Raise ValueError) \/
  (exists i x, np_argmax a = Ok i /\ (i < List.length a)%nat /\ getitem a i = Ok x).
Proof.
  destruct a as [|y rest]; [left; split; reflexivity|right].
  destruct (np_argmax (y :: rest)) as [i|e] eqn:Hi.
  - destruct (np_argmax_range _ _ Hi) as [x Hx]. exists i, x.
    split; [reflexivity|]. split.
    + apply nth_error_Some. congruence.
    + unfold getitem. rewrite Hx. reflexivity.
  - simpl in Hi. discriminate.
Qed.

Lemma PIL_resize_ok im sz resample out :
  PIL.resize im sz resample = Ok out ->
  PIL.size out = sz /\ PIL.mode out = PIL.mode im.
Proof.
  unfold PIL.resize. destruct sz as [w h]. simpl.
  destruct ((fst (PIL.size im) =? w) && (snd (PIL.size im) =? h)) eqn:Hsame.
  - apply andb_prop in Hsame as [Hw Hh]. apply Z.eqb_eq in Hw, Hh.
    intros H. inversion H; subst. split; [|reflexivity].
    destruct (PIL.size out); reflexivity.
  - destruct (negb (PIL.c_int w && PIL.c_int h)); [discriminate|].
    destruct ((w <? 1) || (h <? 1)); [discriminate|].
    intros H. inversion H; subst. split; reflexivity.
Qed.

Lemma PIL_resize_differs im w h :
  PIL.size im <> (w, h) ->
  (fst (PIL.size im) =? w) && (snd (PIL.size im) =? h) = false.
Proof.
  intros Hdiff. apply andb_false_iff.
  destruct (Z.eqb_spec (fst (PIL.size im)) w) as [Hw|Hw]; [|left; reflexivity].
  destruct (Z.eqb_spec (snd (PIL.size im)) h) as [Hh|Hh]; [|right; reflexivity].
  exfalso. apply Hdiff. destruct (PIL.size im). simpl in *. congruence.
Qed.

Lemma c_int_true z : - 2 ^ 31 <= z < 2 ^ 31 -> PIL.c_int z = true.
Proof.
  intros H. unfold PIL.c_int. apply andb_true_iff.
  split; [apply Z.leb_le|apply Z.ltb_lt]; lia.
Qed.

(** A request for another size with both sides from one pixel up to the
    largest C int gives the resized image. *)
Lemma PIL_resize_fresh im w h resample :
  PIL.size im <> (w, h) -> 1 <= w < 2 ^ 31 -> 1 <= h < 2 ^ 31 ->
  PIL.resize im (w, h) resample = Ok (Resized im (w, h) resample).
Proof.
  intros Hdiff Hw Hh. unfold PIL.resize. simpl.
  rewrite (PIL_resize_differs _ _ _ Hdiff), !c_int_true by lia. simpl.
  destruct (Z.ltb_spec w 1); [lia|]. destruct (Z.ltb_spec h 1); [lia|]. reflexivity.
Qed.

(** A request for another size with a side below one pixel, both sides
    being C ints, is refused. *)
Lemma PIL_resize_refused im w h resample :
  PIL.size im <> (w, h) -> - 2 ^ 31 <= w < 2 ^ 31 -> - 2 ^ 31 <= h < 2 ^ 31 ->
  w < 1 \/ h < 1 ->
  PIL.resize im (w, h) resample = Raise ValueError.
Proof.
  intros Hdiff Hw Hh Hsmall. unfold PIL.resize. simpl.
  rewrite (PIL_resize_differs _ _ _ Hdiff), !c_int_true by lia. simpl.
  assert ((w <? 1) || (h <? 1) = true) as ->; [|reflexivity].
  apply orb_true_iff. destruct Hsmall; [left|right]; apply Z.ltb_lt; assumption.
Qed.

Section PredictEdges.

Context (fs : gmap string (list Byte.byte)) (PROJECT_ROOT : string).
Context (np_load : list Byte.byte -> result (list string)).

Lemma predict_ok_inv interp img st st' label confidence probs :
  predict fs PROJECT_ROOT np_load interp img st = (Ok (label, confidence, probs), st') ->
  exists class_names height width img' top_idx,
    load_class_names fs PROJECT_ROOT np_load st = (Ok class_names, st') /\
    getitem (input_shape interp) 1 = Ok height /\
    getitem (input_shape interp) 2 = Ok width /\
    PIL.resize (PIL.convert img "RGB") (width, height) DEFAULT_FILTER = Ok img' /\
    getitem (forward interp img') 0 = Ok probs /\
    np_argmax probs = Ok top_idx /\
    getitem probs top_idx = Ok confidence /\
    getitem class_names top_idx = Ok label.
Proof.
  unfold predict, mbind, lift, ret. intros H.
  destruct (load_class_names fs PROJECT_ROOT np_load st) as [[names|e] st1];
    [|discriminate].
  destruct (getitem (input_shape interp) 1) as [height|]; [|discriminate].
  destruct (getitem (input_shape interp) 2) as [width|]; [|discriminate].
  destruct (PIL.resize _ _ _) as [img'|] eqn:Hr; [|discriminate].
  destruct (getitem (forward interp img') 0) as [probs0|] eqn:Ho; [|discriminate].
  destruct (np_argmax probs0) as [top_idx|] eqn:Ha; [|discriminate].
  destruct (getitem probs0 top_idx) as [c|] eqn:Hc; [|discriminate].
  destruct (getitem names top_idx) as [l|] eqn:Hn; [|discriminate].
  inversion H; subst.
  exists names, height, width, img', top_idx. repeat split; assumption.
Qed.

(** X6. Whenever [predict] returns, the forward pass ran on an RGB image
    whose size is the width and height declared by the interpreter's input
    shape (entries 2 and 1), whatever the mode and size of the upload, and
    the returned vector is the first row of that pass's output. *)
Theorem predict_feeds_declared_shape
    (interp : interpreter) (img : image) (st st' : caches)
    (label : string) (confidence : spec_float) (probs : list spec_float) :
  predict fs PROJECT_ROOT np_load interp img st = (Ok (label, confidence, probs), st') ->
  exists height width img',
    nth_error (input_shape interp) 1 = Some height /\
    nth_error (input_shape interp) 2 = Some width /\
    PIL.mode img' = "RGB" /\
    PIL.size img' = (width, height) /\
    nth_error (forward interp img') 0 = Some probs.
Proof.
  intros H.
  destruct (predict_ok_inv _ _ _ _ _ _ _ H)
    as (names & height & width & img' & top_idx & _ & Hh & Hw & Hr & Ho & _).
  exists height, width, img'.
  apply PIL_resize_ok in Hr as [Hsize Hmode].
  unfold getitem in Hh, Hw, Ho.
  destruct (nth_error (input_shape interp) 1); [|discriminate].
  destruct (nth_error (input_shape interp) 2); [|discriminate].
  destruct (nth_error (forward interp img') 0); [|discriminate].
  inversion Hh; inversion Hw; inversion Ho; subst.
  repeat split; assumption.
Qed.

(** X7. When the cached class-name list is too short to hold the index of
    the winning class, [predict] raises IndexError although the forward
    pass succeeded. *)
Theorem predict_short_label_list
    (interp : interpreter) (img img' : image) (st st' : caches)
    (class_names : list string) (height width : Z)
    (probs : list spec_float) (top_idx : nat) :
  load_class_names fs PROJECT_ROOT np_load st = (Ok class_names, st') ->
  getitem (input_shape interp) 1 = Ok height ->
  getitem (input_shape interp) 2 = Ok width ->
  PIL.resize (PIL.convert img "RGB") (width, height) DEFAULT_FILTER = Ok img' ->
  getitem (forward interp img') 0 = Ok probs ->
  np_argmax probs = Ok top_idx ->
  (List.length class_names <= top_idx)%nat ->
  predict fs PROJECT_ROOT np_load interp img st = (Raise IndexError, st').
Proof.
  intros Hnames Hh Hw Hr Ho Ha Hshort.
  destruct (np_argmax_range _ _ Ha) as [x Hx].
  unfold predict, mbind, lift, ret. rewrite Hnames, Hh, Hw, Hr, Ho, Ha.
  unfold getitem. rewrite Hx.
  apply nth_error_None in Hshort. rewrite Hshort. reflexivity.
Qed.

End PredictEdges.

Lemma predict_feeds_declared_shape_witness :
  exists height width img',
    nth_error (input_shape Sample.interp) 1 = Some height /\
    nth_error (input_shape Sample.interp) 2 = Some width /\
    PIL.mode img' = "RGB" /\
    PIL.size img' = (width, height) /\
    nth_error (forward Sample.interp img') 0 = Some Sample.probs.
Proof.
  apply (predict_feeds_declared_shape Sample.disk Sample.root Sample.np_load
           Sample.interp (Decoded 0 "L" (640, 480)) cold Sample.warm
           "Knife" (PyFloat.literal 70 100) Sample.probs).
  vm_compute. reflexivity.
Defined.

Lemma predict_short_label_list_witness :
  predict Sample.disk Sample.root Sample.np_load Sample.interp (Decoded 0 "L" (640, 480))
    {| model_cache := None; class_names_cache := Some SampleTable.short_names |}
  = (Raise IndexError,
     {| model_cache := None; class_names_cache := Some SampleTable.short_names |}).
Proof.
  apply (predict_short_label_list Sample.disk Sample.root Sample.np_load
           Sample.interp (Decoded 0 "L" (640, 480))
           (Resized (Converted (Decoded 0 "L" (640, 480)) "RGB") (224, 224) DEFAULT_FILTER)
           _ _ SampleTable.short_names 224 224 Sample.probs 5%nat).
  - reflexivity.
  - reflexivity.
  - reflexivity.
  - reflexivity.
  - reflexivity.
  - vm_compute. reflexivity.
  - vm_compute. lia.
Defined.

(** ** A NaN in the model output *)

Lemma argmax_scan_first_nan pre :
  forall rest i mp max_ind,
    no_nan pre ->
    argmax_scan (pre ++ S754_nan :: rest) i mp max_ind = (i + List.length pre)%nat.
Proof.
  induction pre as [|x pre' IH]; intros rest i mp max_ind Hnn; simpl.
  - lia.
  - assert (PyFloat.isnan x = false) as Hx by (inversion Hnn; assumption).
    assert (no_nan pre') as Hpre by (inversion Hnn; assumption).
    rewrite Hx. destruct (negb (PyFloat.leb x mp)); rewrite IH by exact Hpre; lia.
Qed.

Lemma np_argmax_first_nan pre rest :
  no_nan pre -> np_argmax (pre ++ S754_nan :: rest) = Ok (List.length pre).
Proof.
  intros Hnn. destruct pre as [|x pre']; simpl; [reflexivity|].
  assert (PyFloat.isnan x = false) as Hx by (inversion Hnn; assumption).
  assert (no_nan pre') as Hpre by (inversion Hnn; assumption).
  rewrite Hx, argmax_scan_first_nan by exact Hpre. reflexivity.
Qed.

Section NaNOutput.

Context (fs : gmap string (list Byte.byte)) (PROJECT_ROOT : string).
Context (np_load : list Byte.byte -> result (list string)).
Context (np_argsort : list spec_float -> list nat).

(** X8. When the model output holds a NaN, [predict] reports the position
    of the first NaN: the label is the class name there and the confidence
    is NaN.  Rendering that prediction raises ValueError at the bar-width
    rounding, before anything is drawn, so the scan ends in an error
    instead of a result card. *)
Theorem nan_output_aborts_rendering
    (interp : interpreter) (img img' : image) (st st' : caches)
    (class_names : list string) (height width : Z)
    (pre rest : list spec_float) :
  load_class_names fs PROJECT_ROOT np_load st = (Ok class_names, st') ->
  getitem (input_shape interp) 1 = Ok height ->
  getitem (input_shape interp) 2 = Ok width ->
  PIL.resize (PIL.convert img "RGB") (width, height) DEFAULT_FILTER = Ok img' ->
  getitem (forward interp img') 0 = Ok (pre ++ S754_nan :: rest)%list ->
  no_nan pre ->
  (List.length pre < List.length class_names)%nat ->
  exists label,
    nth_error class_names (List.length pre) = Some label /\
    predict fs PROJECT_ROOT np_load interp img st
      = (Ok (label, S754_nan, (pre ++ S754_nan :: rest)%list), st') /\
    render_results fs PROJECT_ROOT np_load np_argsort
        label S754_nan (pre ++ S754_nan :: rest)%list st'
      = (Raise ValueError, st').
Proof.
  intros Hnames Hh Hw Hr Ho Hnn Hlen.
  destruct (nth_error class_names (List.length pre)) as [label|] eqn:Hlabel;
    [|apply nth_error_None in Hlabel; lia].
  exists label. split; [reflexivity|]. split.
  - unfold predict, mbind, lift, ret.
    rewrite Hnames, Hh, Hw, Hr, Ho, (np_argmax_first_nan _ _ Hnn).
    unfold getitem. rewrite nth_error_app2 by lia. rewrite Nat.sub_diag. simpl.
    rewrite Hlabel. reflexivity.
  - destruct (load_class_names_ok _ _ _ _ _ _ Hnames) as (Hcache & _).
    unfold render_results, render_result_card, mbind, lift, ret.
    rewrite (load_class_names_cached _ _ _ _ _ Hcache). reflexivity.
Qed.

End NaNOutput.

Lemma nan_output_aborts_rendering_witness :
  exists label,
    nth_error Sample.names 1 = Some label /\
    predict Sample.disk Sample.root Sample.np_load
      {| input_shape := [1; 224; 224; 3];
         forward := fun _ => [SampleTable.probs_with_nan] |}
      (Decoded 0 "RGB" (224, 224)) cold
      = (Ok (label, S754_nan, SampleTable.probs_with_nan), Sample.warm) /\
    render_results Sample.disk Sample.root Sample.np_load SampleTable.argsort
        label S754_nan SampleTable.probs_with_nan Sample.warm
      = (Raise ValueError, Sample.warm).
Proof.
  apply (nan_output_aborts_rendering Sample.disk Sample.root Sample.np_load
           SampleTable.argsort
           {| input_shape := [1; 224; 224; 3];
              forward := fun _ => [SampleTable.probs_with_nan] |}
           (Decoded 0 "RGB" (224, 224)) (Converted (Decoded 0 "RGB" (224, 224)) "RGB")
           cold Sample.warm Sample.names 224 224
           [PyFloat.literal 10 100] [PyFloat.literal 20 100]).
  - vm_compute. reflexivity.
  - reflexivity.
  - reflexivity.
  - reflexivity.
  - reflexivity.
  - repeat constructor.
  - vm_compute. lia.
Defined.

(** ** The probability table *)

Lemma rows_loop_ok class_names probs idxs :
  forall rows,
    probability_rows_loop class_names probs idxs = Ok rows ->
    map row_name rows = map (fun i => nth i class_names EmptyString) idxs /\
    Forall (fun i => (i < List.length class_names)%nat) idxs.
Proof.
  induction idxs as [|idx rest IH]; simpl; intros rows H.
  - inversion H; subst. split; [reflexivity|constructor].
  - unfold getitem in H.
    destruct (nth_error class_names idx) as [name|] eqn:Hn; [|discriminate]. simpl in H.
    destruct (nth_error probs idx) as [prob|]; [|discriminate]. simpl in H.
    destruct (PyRound.to_int (times_100 prob)) as [w|]; [|discriminate]. simpl in H.
    destruct (probability_rows_loop class_names probs rest) as [rows'|]; [|discriminate].
    simpl in H. inversion H; subst. destruct (IH rows' eq_refl) as [Hmap Hall].
    split.
    + simpl. rewrite Hmap. f_equal. symmetry. apply nth_error_nth. exact Hn.
    + constructor; [|exact Hall]. apply nth_error_Some. congruence.
Qed.

Lemma rows_loop_length class_names probs idxs :
  forall rows,
    probability_rows_loop class_names probs idxs = Ok rows ->
    List.length rows = List.length idxs.
Proof.
  induction idxs as [|idx rest IH]; simpl; intros rows H.
  - inversion H; subst. reflexivity.
  - destruct (getitem class_names idx); [|discriminate]. simpl in H.
    destruct (getitem probs idx) as [prob|]; [|discriminate]. simpl in H.
    destruct (PyRound.to_int (times_100 prob)); [|discriminate]. simpl in H.
    destruct (probability_rows_loop class_names probs rest) as [rows'|]; [|discriminate].
    simpl in H. inversion H; subst. simpl. rewrite (IH rows' eq_refl). reflexivity.
Qed.

Lemma rows_loop_index_error class_names probs idxs :
  Forall (fun i => (i < List.length probs)%nat) idxs ->
  (forall p, In p probs -> exists w, PyRound.to_int (times_100 p) = Ok w) ->
  Exists (fun i => (List.length class_names <= i)%nat) idxs ->
  probability_rows_loop class_names probs idxs = Raise IndexError.
Proof.
  intros Hin Hfinite. induction idxs as [|idx rest IH]; intros Hbad.
  - inversion Hbad.
  - simpl. unfold getitem.
    destruct (nth_error class_names idx) as [name|] eqn:Hn; [|reflexivity]. simpl.
    assert ((idx < List.length probs)%nat) as Hidx by (inversion Hin; assumption).
    destruct (nth_error probs idx) as [prob|] eqn:Hp;
      [|apply nth_error_None in Hp; lia]. simpl.
    destruct (Hfinite prob (nth_error_In _ _ Hp)) as [w ->]. simpl.
    rewrite IH; [reflexivity|inversion Hin; assumption|].
    inversion Hbad as [? ? Hhead|? ? Htail]; subst; [|exact Htail].
    exfalso. assert ((idx < List.length class_names)%nat) by (apply nth_error_Some; congruence).
    lia.
Qed.

Lemma map_nth_seq (names : list string) :
  forall n, (n <= List.length names)%nat ->
    map (fun i => nth i names EmptyString) (seq 0 n) = firstn n names.
Proof.
  induction names as [|a l IH]; intros n Hn; simpl in Hn.
  - assert (n = O) by lia. subst. reflexivity.
  - destruct n as [|n]; [reflexivity|]. simpl.
    rewrite <- seq_shift, map_map. simpl. rewrite IH by lia. reflexivity.
Qed.

Section Table.

Context (np_argsort : list spec_float -> list nat).

(** X9. Provided [np.argsort] returns each index of the array once, a
    probability table that renders has one row per model output, needs a
    class-name list at least that long, and its rows carry the first
    [len(probs)] class names, each exactly once. *)
Theorem probability_rows_cover_classes
    (class_names : list string) (probs : list spec_float) (rows : list prob_row) :
  Permutation (np_argsort probs) (seq 0 (List.length probs)) ->
  probability_rows np_argsort class_names probs = Ok rows ->
  List.length rows = List.length probs /\
  (List.length probs <= List.length class_names)%nat /\
  Permutation (map row_name rows) (firstn (List.length probs) class_names).
Proof.
  intros Hperm Hrows. unfold probability_rows in Hrows.
  assert (Permutation (rev (np_argsort probs)) (seq 0 (List.length probs))) as Hrev.
  { etransitivity; [symmetry; apply Permutation_rev|exact Hperm]. }
  destruct (rows_loop_ok _ _ _ _ Hrows) as [Hmap Hall].
  assert ((List.length probs <= List.length class_names)%nat) as Hlen.
  { destruct (List.length probs) as [|n] eqn:Hn; [lia|].
    assert (In n (rev (np_argsort probs))) as Hin.
    { eapply Permutation_in; [symmetry; exact Hrev|]. apply in_seq. lia. }
    rewrite List.Forall_forall in Hall. specialize (Hall n Hin). simpl in Hall. lia. }
  split; [|split; [exact Hlen|]].
  - rewrite (rows_loop_length _ _ _ _ Hrows).
    rewrite (Permutation_length Hrev). apply length_seq.
  - rewrite Hmap, <- (map_nth_seq class_names _ Hlen).
    apply Permutation_map. exact Hrev.
Qed.

Context (fs : gmap string (list Byte.byte)) (PROJECT_ROOT : string).
Context (np_load : list Byte.byte -> result (list string)).

(** X10. With a cached class-name list shorter than the model output,
    [render_results] raises IndexError while building the probability
    table, for every finite confidence and finite probabilities and
    whatever the predicted label. *)
Theorem short_label_list_breaks_table
    (predicted_class : string) (confidence : spec_float) (probs : list spec_float)
    (st : caches) (class_names : list string) (width : Z) :
  class_names_cache st = Some class_names ->
  Permutation (np_argsort probs) (seq 0 (List.length probs)) ->
  (List.length class_names < List.length probs)%nat ->
  PyRound.to_int (times_100 confidence) = Ok width ->
  (forall p, In p probs -> exists w, PyRound.to_int (times_100 p) = Ok w) ->
  render_results fs PROJECT_ROOT np_load np_argsort
      predicted_class confidence probs st
  = (Raise IndexError, st).
Proof.
  intros Hcache Hperm Hshort Hwidth Hfinite.
  unfold render_results, render_result_card, mbind, lift, ret.
  rewrite (load_class_names_cached _ _ _ _ _ Hcache).
  unfold confidence_texts. rewrite Hwidth. simpl.
  unfold probability_rows. rewrite rows_loop_index_error; [reflexivity| |exact Hfinite|].
  - apply List.Forall_forall. intros i Hi. apply in_rev in Hi.
    apply (Permutation_in _ Hperm) in Hi. apply in_seq in Hi. lia.
  - apply List.Exists_exists. exists (List.length class_names). split; [|lia].
    apply in_rev. rewrite rev_involutive.
    apply (Permutation_in _ (Permutation_sym Hperm)). apply in_seq. lia.
Qed.

End Table.

Lemma sample_argsort_permutation :
  Permutation (SampleTable.argsort Sample.probs) (seq 0 (List.length Sample.probs)).
Proof.
  change (SampleTable.argsort Sample.probs) with [0; 1; 2; 3; 4; 6; 5]%nat.
  change (seq 0 (List.length Sample.probs)) with [0; 1; 2; 3; 4; 5; 6]%nat.
  do 5 apply perm_skip. apply perm_swap.
Qed.

Lemma probability_rows_cover_classes_witness :
  match probability_rows SampleTable.argsort Sample.names Sample.probs with
  | Ok rows =>
      List.length rows = List.length Sample.probs /\
      (List.length Sample.probs <= List.length Sample.names)%nat /\
      Permutation (map row_name rows) (firstn (List.length Sample.probs) Sample.names)
  | Raise _ => False
  end.
Proof.
  destruct (probability_rows SampleTable.argsort Sample.names Sample.probs)
    as [rows|e] eqn:Hrows.
  - apply (probability_rows_cover_classes SampleTable.argsort
             Sample.names Sample.probs rows sample_argsort_permutation Hrows).
  - vm_compute in Hrows. discriminate Hrows.
Defined.

Lemma short_label_list_breaks_table_witness :
  render_results Sample.disk Sample.root Sample.np_load SampleTable.argsort
    "Battery" (PyFloat.literal 70 100) Sample.probs
    {| model_cache := None; class_names_cache := Some SampleTable.short_names |}
  = (Raise IndexError,
     {| model_cache := None; class_names_cache := Some SampleTable.short_names |}).
Proof.
  apply (short_label_list_breaks_table SampleTable.argsort
           Sample.disk Sample.root Sample.np_load
           "Battery" (PyFloat.literal 70 100) Sample.probs _
           SampleTable.short_names 70).
  - reflexivity.
  - exact sample_argsort_permutation.
  - vm_compute. lia.
  - vm_compute. reflexivity.
  - intros p Hp. simpl in Hp.
    repeat (destruct Hp as [Hp|Hp]; [subst p; eexists; vm_compute; reflexivity|]).
    contradiction.
Defined.

(** The table of the sample: the winning class first, at 70 percent. *)
Example probability_rows_sample :
  match probability_rows SampleTable.argsort Sample.names Sample.probs with
  | Ok (top :: _) =>
      row_name top = "Knife" /\ row_bar_w top = 70 /\ row_pct top = PyFloat.of_int 70
  | _ => False
  end.
Proof. vm_compute. repeat split. Qed.

(** ** The result card *)

Lemma ltb_not_nan x y : PyFloat.ltb x y = true -> PyFloat.isnan x = false /\ PyFloat.isnan y = false.
Proof. destruct x, y; simpl; try discriminate; split; reflexivity. Qed.

Lemma ltb_not_geb x y : PyFloat.ltb x y = true -> PyFloat.geb x y = false.
Proof.
  intros H. unfold PyFloat.geb. change (SFleb y x) with (PyFloat.leb y x).
  destruct (PyFloat.leb y x) eqn:Hle; [|reflexivity].
  apply leb_not_ltb in Hle. congruence.
Qed.

Lemma ltb_trans x y z :
  PyFloat.ltb x y = true -> PyFloat.ltb y z = true -> PyFloat.ltb x z = true.
Proof.
  intros H1 H2. destruct (ltb_not_nan _ _ H1) as [Hx Hy].
  destruct (ltb_not_nan _ _ H2) as [_ Hz].
  apply (leb_ltb_trans x y z); try assumption. apply ltb_leb; assumption.
Qed.

Lemma conf_color_render_card predicted_class confidence :
  conf_color (render_card predicted_class confidence)
  = if PyFloat.geb confidence lit_0_8 then "#22c55e"
    else if PyFloat.geb confidence lit_0_5 then "#eab308"
    else "#ef4444".
Proof. unfold render_card. destruct (PyFloat.ltb confidence lit_0_30); reflexivity. Qed.

(** X11. The confidence colour of the card: green from 0.8 up, amber from
    0.5 up to but not including 0.8, red below 0.5 and for NaN.  The two
    thresholds of the card agree with the override: a card overridden to
    "Not Known" (confidence below 0.30) is always red, and a green or amber
    card always shows the predicted label itself. *)
Theorem confidence_colour_bands (predicted_class : string) (confidence : spec_float) :
  let card := render_card predicted_class confidence in
  (PyFloat.geb confidence lit_0_8 = true -> conf_color card = "#22c55e") /\
  (PyFloat.geb confidence lit_0_5 = true -> PyFloat.ltb confidence lit_0_8 = true ->
     conf_color card = "#eab308") /\
  (PyFloat.ltb confidence lit_0_5 = true -> conf_color card = "#ef4444") /\
  (PyFloat.isnan confidence = true -> conf_color card = "#ef4444") /\
  (PyFloat.ltb confidence lit_0_30 = true -> conf_color card = "#ef4444") /\
  (conf_color card <> "#ef4444" -> display_name card = predicted_class).
Proof.
  intros card. subst card. rewrite conf_color_render_card.
  assert (forall c, PyFloat.ltb c lit_0_5 = true ->
            (if PyFloat.geb c lit_0_8 then "#22c55e"
             else if PyFloat.geb c lit_0_5 then "#eab308" else "#ef4444") = "#ef4444")
    as Hred.
  { intros c Hc. rewrite (ltb_not_geb _ _ Hc).
    assert (PyFloat.ltb c lit_0_8 = true) as H8
      by (apply (ltb_trans c lit_0_5 lit_0_8); [exact Hc|reflexivity]).
    rewrite (ltb_not_geb _ _ H8). reflexivity. }
  assert (forall c, PyFloat.ltb c lit_0_30 = true -> PyFloat.ltb c lit_0_5 = true) as Hlow.
  { intros c Hc. apply (ltb_trans c lit_0_30 lit_0_5); [exact Hc|reflexivity]. }
  split; [|split; [|split; [|split; [|split]]]].
  - intros ->. reflexivity.
  - intros H5 H8. rewrite (ltb_not_geb _ _ H8), H5. reflexivity.
  - apply Hred.
  - destruct confidence; try discriminate. reflexivity.
  - intros H. apply Hred, Hlow, H.
  - intros Hcolour. unfold render_card.
    destruct (PyFloat.ltb confidence lit_0_30) eqn:Hlt; [|reflexivity].
    exfalso. apply Hcolour. apply Hred, Hlow, Hlt.
Qed.

Lemma confidence_colour_bands_witness :
  conf_color (render_card "Knife" (PyFloat.literal 95 100)) = "#22c55e" /\
  conf_color (render_card "Knife" (PyFloat.literal 65 100)) = "#eab308" /\
  conf_color (render_card "Knife" (PyFloat.literal 80 100)) = "#22c55e" /\
  conf_color (render_card "Knife" (PyFloat.literal 50 100)) = "#eab308" /\
  conf_color (render_card "Knife" (PyFloat.literal 10 100)) = "#ef4444".
Proof.
  split; [|split; [|split; [|split]]].
  - apply (confidence_colour_bands "Knife" (PyFloat.literal 95 100)). reflexivity.
  - apply (confidence_colour_bands "Knife" (PyFloat.literal 65 100)); reflexivity.
  - apply (confidence_colour_bands "Knife" (PyFloat.literal 80 100)). reflexivity.
  - apply (confidence_colour_bands "Knife" (PyFloat.literal 50 100)); reflexivity.
  - apply (confidence_colour_bands "Knife" (PyFloat.literal 10 100)). reflexivity.
Defined.

Lemma threat_lookup_absent name :
  ~ In name (map fst THREAT_INFO_items) -> threat_lookup name = unknown_info.
Proof.
  intros Hnot.
  assert (THREAT_INFO !! name = None) as Hnone.
  { apply not_elem_of_list_to_map_1. rewrite list_elem_of_In. exact Hnot. }
  unfold threat_lookup, dict_get. rewrite Hnone. reflexivity.
Qed.

Lemma threat_lookup_present name info :
  In (name, info) THREAT_INFO_items -> threat_lookup name = info.
Proof.
  intros Hin. simpl in Hin.
  repeat (destruct Hin as [Heq|Hin]; [inversion Heq; subst; vm_compute; reflexivity|]).
  contradiction.
Qed.

Lemma catalog_key_dec name :
  In name (map fst THREAT_INFO_items) \/ ~ In name (map fst THREAT_INFO_items).
Proof. destruct (in_dec String.string_dec name (map fst THREAT_INFO_items)); auto. Qed.

(** X12. The badge class of the result card is one of the four classes
    that [CUSTOM_CSS] styles, except in one case: a predicted label that is
    not a catalog key, shown at a confidence not below 0.30, gets the class
    "risk-unknown", for which the style sheet has no rule. *)
Theorem result_badge_class (predicted_class : string) (confidence : spec_float) :
  let card := render_card predicted_class confidence in
  ~ In "risk-unknown" styled_risk_classes /\
  (In (risk_class card) styled_risk_classes \/ risk_class card = "risk-unknown") /\
  (risk_class card = "risk-unknown" <->
     ~ In predicted_class (map fst THREAT_INFO_items) /\
     PyFloat.ltb confidence lit_0_30 = false).
Proof.
  intros card. subst card. split.
  { simpl. intros H. repeat (destruct H as [H|H]; [discriminate H|]). exact H. }
  unfold render_card.
  destruct (PyFloat.ltb confidence lit_0_30) eqn:Hlt; simpl.
  - split; [left; simpl; tauto|]. split; [discriminate|]. intros [_ H]. discriminate H.
  - destruct (catalog_key_dec predicted_class) as [Hin|Hnot].
    + assert (In (risk_class
                    {| card_predicted_class := predicted_class;
                       card_confidence := confidence;
                       display_name := predicted_class;
                       display_risk := risk (threat_lookup predicted_class);
                       risk_class := "risk-" +:+ PyStr.lower (risk (threat_lookup predicted_class));
                       display_desc := desc (threat_lookup predicted_class);
                       conf_color := conf_color (render_card predicted_class confidence) |})
                 styled_risk_classes) as Hstyled.
      { simpl in Hin.
        repeat (destruct Hin as [Heq|Hin]; [subst predicted_class; vm_compute; tauto|]).
        contradiction. }
      simpl in Hstyled. split; [left; exact Hstyled|]. split.
      * intros Heq. rewrite Heq in Hstyled. simpl in Hstyled.
        repeat (destruct Hstyled as [H|Hstyled]; [discriminate H|]). contradiction.
      * intros [Hnot _]. contradiction.
    + rewrite (threat_lookup_absent _ Hnot). simpl.
      split; [right; reflexivity|]. split; [intros _; split; [exact Hnot|reflexivity]|].
      intros _. reflexivity.
Qed.

(** ** Resolver and catalog together *)

Lemma clean_class_name_cut before after :
  PyStr.contains "_" before = false ->
  clean_class_name (before +:+ "_" +:+ after) = after.
Proof.
  intros H. unfold clean_class_name, PyStr.split.
  change (before +:+ "_" +:+ after) with (before +:+ String "_" after).
  rewrite (partition_first_present _ _ _ H). reflexivity.
Qed.

(** X13. The resolver and the catalog compose: a label-file entry made of
    an underscore-free prefix, an underscore and a catalog key is shown
    with that key's own catalog record. *)
Theorem prefixed_label_finds_catalog_entry
    (prefix key : string) (info : threat_info) :
  PyStr.contains "_" prefix = false ->
  In (key, info) THREAT_INFO_items ->
  threat_lookup (clean_class_name (prefix +:+ "_" +:+ key)) = info.
Proof.
  intros Hprefix Hin. rewrite (clean_class_name_cut _ _ Hprefix).
  apply threat_lookup_present. exact Hin.
Qed.

Lemma prefixed_label_finds_catalog_entry_witness :
  risk (threat_lookup (clean_class_name ("Class 10" +:+ "_" +:+ "Explosive"))) = "Critical".
Proof.
  rewrite (prefixed_label_finds_catalog_entry "Class 10" "Explosive"
             {| risk := "Critical"; color := "#d9534f";
                icon := Some "https://cdn-icons-png.flaticon.com/512/2785/2785819.png";
                desc := "Explosive materials are strictly prohibited." |}).
  - reflexivity.
  - reflexivity.
  - simpl. tauto.
Defined.

Lemma string_app_assoc a b c : (a +:+ b) +:+ c = a +:+ (b +:+ c).
Proof.
  induction a as [|d rest IH]; [reflexivity|].
  change (String d ((rest +:+ b) +:+ c) = String d (rest +:+ (b +:+ c))).
  f_equal. exact IH.
Qed.

(** X14. [clean_class_name] only ever removes a prefix: its result is a
    suffix of the input, and it returns the input unchanged exactly when
    the input has no underscore (otherwise the result is strictly
    shorter). *)
Theorem clean_class_name_is_suffix (raw_name : string) :
  (exists removed, raw_name = removed +:+ clean_class_name raw_name) /\
  (clean_class_name raw_name = raw_name <-> PyStr.contains "_" raw_name = false) /\
  (PyStr.contains "_" raw_name = true ->
     (String.length (clean_class_name raw_name) < String.length raw_name)%nat).
Proof.
  destruct (split_once_cases raw_name) as [[Hnone Hsplit]|(before & after & Heq & Hb & Hsplit)].
  - assert (clean_class_name raw_name = raw_name) as Hid
      by (unfold clean_class_name; rewrite Hsplit; reflexivity).
    rewrite Hid. split; [exists EmptyString; reflexivity|].
    split; [tauto|]. rewrite Hnone. discriminate.
  - assert (clean_class_name raw_name = after) as Hcut
      by (unfold clean_class_name; rewrite Hsplit; reflexivity).
    assert (PyStr.contains "_" raw_name = true) as Hc.
    { rewrite Heq, !contains_append. simpl. apply orb_true_r. }
    assert ((String.length after < String.length raw_name)%nat) as Hlen.
    { rewrite Heq, !length_append. simpl. lia. }
    rewrite Hcut. split; [|split].
    + exists (before +:+ "_"). rewrite Heq. symmetry. apply string_app_assoc.
    + rewrite Hc. split; [|discriminate].
      intros Hsame. rewrite <- Hsame in Hlen. lia.
    + intros _. exact Hlen.
Qed.

(** ** The conversion pipeline *)

Lemma str_in_flat_false target_format :
  str_in target_format ["JPEG"; "BMP"; "ICO"] = false ->
  String.eqb target_format "JPEG" = false.
Proof.
  unfold str_in. simpl. intros H. apply orb_false_iff in H as [H _]. exact H.
Qed.

Lemma alpha_step_cases (target_format : string) (out_image : image) :
  exists out,
    alpha_step target_format out_image = Ok out /\
    PIL.size out = PIL.size out_image /\
    (target_format = "JPEG" -> PIL.mode out = "RGB") /\
    (str_in target_format ["JPEG"; "BMP"; "ICO"] = true -> PIL.mode out <> "RGBA") /\
    (str_in target_format ["JPEG"; "BMP"; "ICO"] = false -> out = out_image).
Proof.
  unfold alpha_step.
  destruct (str_in target_format ["JPEG"; "BMP"; "ICO"]) eqn:Hflat; simpl.
  - destruct (String.eqb_spec (PIL.mode out_image) "RGBA") as [Hm|Hm].
    + rewrite (split_rgba _ Hm). simpl. eexists. split; [reflexivity|].
      repeat split; try discriminate.
    + destruct (String.eqb_spec target_format "JPEG") as [Hj|Hj]; simpl.
      * destruct (String.eqb_spec (PIL.mode out_image) "RGB") as [Hrgb|Hrgb]; simpl.
        -- eexists. split; [reflexivity|]. repeat split; try discriminate; auto.
        -- eexists. split; [reflexivity|]. repeat split; try discriminate.
      * eexists. split; [reflexivity|]. repeat split; try discriminate; auto.
        intros Hj'. contradiction.
  - rewrite (str_in_flat_false _ Hflat). simpl.
    eexists. split; [reflexivity|]. repeat split; try discriminate.
    intros ->. discriminate Hflat.
Qed.

(** X15. The alpha step never raises and never changes the size.  After
    it a JPEG-bound image is in mode RGB, a BMP- or ICO-bound image is
    never in mode RGBA, and for every other target (PNG, GIF, TIFF, WEBP)
    the image is passed on untouched, transparency included. *)
Theorem alpha_step_outcome (target_format : string) (out_image : image) :
  exists out,
    alpha_step target_format out_image = Ok out /\
    PIL.size out = PIL.size out_image /\
    (target_format = "JPEG" -> PIL.mode out = "RGB") /\
    (str_in target_format ["JPEG"; "BMP"; "ICO"] = true -> PIL.mode out <> "RGBA") /\
    (str_in target_format ["JPEG"; "BMP"; "ICO"] = false -> out = out_image).
Proof. exact (alpha_step_cases target_format out_image). Qed.

(** X16. For a target other than ICO a resize request is never
    altered: whenever the pipeline returns, the output has exactly the
    requested size (and is in mode RGB for JPEG).  A request that differs
    from the current size and has a side below one pixel, both sides being
    C ints, makes the pipeline raise ValueError. *)
Theorem resize_request_honoured
    (conv_image : image) (target_format : string) (new_w new_h : Z) :
  target_format <> "ICO" ->
  (forall out_image,
      convert_image conv_image target_format true new_w new_h = Ok out_image ->
      PIL.size out_image = (new_w, new_h) /\
      (target_format = "JPEG" -> PIL.mode out_image = "RGB")) /\
  (PIL.size conv_image <> (new_w, new_h) ->
   - 2 ^ 31 <= new_w < 2 ^ 31 -> - 2 ^ 31 <= new_h < 2 ^ 31 ->
   new_w < 1 \/ new_h < 1 ->
   convert_image conv_image target_format true new_w new_h = Raise ValueError).
Proof.
  intros Hico. apply String.eqb_neq in Hico. split.
  - intros out_image Hrun. unfold convert_image, resize_step in Hrun.
    destruct (PIL.resize conv_image (new_w, new_h) LANCZOS) as [resized|] eqn:Hr;
      [|discriminate].
    simpl in Hrun.
    destruct (PIL_resize_ok _ _ _ _ Hr) as [Hsize _].
    destruct (alpha_step_cases target_format resized) as (out & Hout & Hos & Hjpeg & _).
    rewrite Hout in Hrun. simpl in Hrun.
    unfold ico_step in Hrun. rewrite Hico in Hrun. inversion Hrun; subst.
    split; [congruence|exact Hjpeg].
  - intros Hdiff Hw Hh Hsmall. unfold convert_image, resize_step.
    rewrite (PIL_resize_refused _ _ _ _ Hdiff Hw Hh Hsmall). reflexivity.
Qed.

Lemma resize_request_honoured_witness :
  (exists out_image,
      convert_image (Decoded 0 "RGBA" (100, 80)) "JPEG" true 50 40 = Ok out_image /\
      PIL.size out_image = (50, 40) /\
      ("JPEG" = "JPEG" -> PIL.mode out_image = "RGB")) /\
  convert_image (Decoded 0 "RGBA" (100, 80)) "PNG" true 0 40 = Raise ValueError.
Proof.
  split.
  - eexists. split; [reflexivity|].
    apply (resize_request_honoured (Decoded 0 "RGBA" (100, 80)) "JPEG" 50 40);
      [discriminate|reflexivity].
  - apply (resize_request_honoured (Decoded 0 "RGBA" (100, 80)) "PNG" 0 40);
      [discriminate|discriminate|lia|lia|lia].
Defined.

(** X17. An ICO conversion without resize of an image of at most 256 by
    256 pixels succeeds and keeps the size; the output is never in mode
    RGBA, and an image that was not RGBA is passed on unchanged. *)
Theorem ico_small_keeps_size (conv_image : image) (new_w new_h : Z) :
  fst (PIL.size conv_image) <= 256 ->
  snd (PIL.size conv_image) <= 256 ->
  exists out_image,
    convert_image conv_image "ICO" false new_w new_h = Ok out_image /\
    PIL.size out_image = PIL.size conv_image /\
    PIL.mode out_image <> "RGBA" /\
    (PIL.mode conv_image <> "RGBA" -> out_image = conv_image).
Proof.
  intros Hw Hh.
  destruct (alpha_step_cases "ICO" conv_image) as (out & Hout & Hsize & _ & Hmode & _).
  exists out. unfold convert_image, resize_step. simpl. rewrite Hout. simpl.
  rewrite ico_step_small by (rewrite Hsize; assumption).
  split; [reflexivity|]. split; [exact Hsize|]. split; [apply Hmode; reflexivity|].
  intros Hnot. unfold alpha_step in Hout. simpl in Hout.
  apply String.eqb_neq in Hnot. rewrite Hnot in Hout. simpl in Hout.
  inversion Hout. reflexivity.
Qed.

Lemma ico_small_keeps_size_witness :
  exists out_image,
    convert_image (Decoded 0 "RGBA" (100, 80)) "ICO" false 100 80 = Ok out_image /\
    PIL.size out_image = (100, 80) /\
    PIL.mode out_image <> "RGBA" /\
    (PIL.mode (Decoded 0 "RGBA" (100, 80)) <> "RGBA" ->
       out_image = Decoded 0 "RGBA" (100, 80)).
Proof.
  apply (ico_small_keeps_size (Decoded 0 "RGBA" (100, 80)) 100 80); simpl; lia.
Defined.

(** ** The ICO size limit on large images *)

Lemma all_from_spec test count :
  forall start,
    all_from start count test = true ->
    forall z, start <= z < start + Z.of_nat count -> test z = true.
Proof.
  induction count as [|k IH]; intros start H z Hz; [lia|].
  simpl in H. apply andb_true_iff in H as [Hhead Htail].
  destruct (Z.eq_dec z start) as [->|Hne]; [exact Hhead|].
  apply (IH (start + 1) Htail). lia.
Qed.

(** Every longest side from 257 to 8192 pixels, checked by evaluation. *)
Lemma ico_scale_checked : all_from 257 (Z.to_nat 7936) ico_scale_ok = true.
Proof. vm_cast_no_check (eq_refl true). Qed.

Lemma ico_scale_sides max_dim :
  256 < max_dim <= 8192 ->
  exists s, (s = 255 \/ s = 256) /\ ico_side max_dim max_dim = Ok s /\
            ico_side 1 max_dim = Ok 0.
Proof.
  intros Hm.
  assert (ico_scale_ok max_dim = true) as H.
  { apply (all_from_spec _ _ _ ico_scale_checked). rewrite Z2Nat.id by lia. lia. }
  unfold ico_scale_ok in H.
  destruct (ico_side max_dim max_dim) as [s|]; [|discriminate].
  destruct (ico_side 1 max_dim) as [u|]; [|discriminate].
  apply andb_true_iff in H as [Hs Hu]. apply Z.eqb_eq in Hu. subst u.
  exists s. split; [|split; reflexivity].
  apply orb_true_iff in Hs as [Hs|Hs]; apply Z.eqb_eq in Hs; auto.
Qed.

Lemma ico_step_large out_image :
  256 < Z.max (fst (PIL.size out_image)) (snd (PIL.size out_image)) ->
  ico_step "ICO" out_image =
  (do w <- ico_side (fst (PIL.size out_image))
             (Z.max (fst (PIL.size out_image)) (snd (PIL.size out_image)));
   do h <- ico_side (snd (PIL.size out_image))
             (Z.max (fst (PIL.size out_image)) (snd (PIL.size out_image)));
   PIL.resize out_image (w, h) LANCZOS).
Proof.
  intros H. unfold ico_step. simpl. apply Z.ltb_lt in H. rewrite H. reflexivity.
Qed.

(** X18. For an image whose longer side is between 257 and 8192 pixels,
    the ICO step computes that side as 255 or 256, never more: whenever the
    step returns, the side that was longest is 255 or 256 pixels, and a
    square image always converts, to 255 by 255 or 256 by 256. *)
Theorem ico_longest_side_255_or_256 (out_image : image) :
  256 < Z.max (fst (PIL.size out_image)) (snd (PIL.size out_image)) <= 8192 ->
  exists s,
    (s = 255 \/ s = 256) /\
    (forall scaled,
        ico_step "ICO" out_image = Ok scaled ->
        (snd (PIL.size out_image) <= fst (PIL.size out_image) ->
           fst (PIL.size scaled) = s) /\
        (fst (PIL.size out_image) <= snd (PIL.size out_image) ->
           snd (PIL.size scaled) = s)) /\
    (fst (PIL.size out_image) = snd (PIL.size out_image) ->
       ico_step "ICO" out_image = Ok (Resized out_image (s, s) LANCZOS)).
Proof.
  intros Hmax.
  destruct (ico_scale_sides _ Hmax) as (s & Hs & Hside & _).
  exists s. split; [exact Hs|].
  rewrite (ico_step_large out_image) by lia.
  destruct (PIL.size out_image) as [w h] eqn:Hsize. simpl in *.
  split.
  - intros scaled Hstep. split; intros Hcmp.
    + replace (Z.max w h) with w in * by lia. rewrite Hside in Hstep. simpl in Hstep.
      destruct (ico_side h w) as [t|]; [|discriminate]. simpl in Hstep.
      apply PIL_resize_ok in Hstep as [Hsz _]. rewrite Hsz. reflexivity.
    + replace (Z.max w h) with h in * by lia. rewrite Hside in Hstep.
      destruct (ico_side w h) as [t|]; [|discriminate]. simpl in Hstep.
      apply PIL_resize_ok in Hstep as [Hsz _]. rewrite Hsz. reflexivity.
  - intros Heq. subst h. replace (Z.max w w) with w in * by lia.
    rewrite Hside. simpl. apply PIL_resize_fresh; [|lia|lia].
    rewrite Hsize. intros Hsame. inversion Hsame. lia.
Qed.

Lemma ico_longest_side_255_or_256_witness :
  exists s,
    (s = 255 \/ s = 256) /\
    ico_step "ICO" (Decoded 0 "RGB" (1000, 1000))
    = Ok (Resized (Decoded 0 "RGB" (1000, 1000)) (s, s) LANCZOS).
Proof.
  destruct (ico_longest_side_255_or_256 (Decoded 0 "RGB" (1000, 1000)))
    as (s & Hs & _ & Hsquare).
  - simpl. lia.
  - exists s. split; [exact Hs|]. apply Hsquare. reflexivity.
Defined.

(** X19. An image one pixel thin whose other side is between 257 and 8192
    pixels cannot be converted to ICO: the thin side scales to zero pixels
    and the pipeline raises ValueError at the resize. *)
Theorem ico_thin_image_raises (conv_image : image) (new_w new_h : Z) :
  256 < Z.max (fst (PIL.size conv_image)) (snd (PIL.size conv_image)) <= 8192 ->
  Z.min (fst (PIL.size conv_image)) (snd (PIL.size conv_image)) = 1 ->
  convert_image conv_image "ICO" false new_w new_h = Raise ValueError.
Proof.
  intros Hmax Hmin.
  destruct (alpha_step_cases "ICO" conv_image) as (out & Hout & Hsize & _).
  unfold convert_image, resize_step. simpl. rewrite Hout. simpl.
  rewrite <- Hsize in Hmax, Hmin.
  destruct (ico_scale_sides _ Hmax) as (s & Hs & Hside & Hunit).
  rewrite (ico_step_large out) by lia.
  destruct (PIL.size out) as [w h] eqn:Hsz. simpl in *.
  destruct (Z.le_gt_cases h w) as [Hle|Hgt].
  - replace (Z.max w h) with w in * by lia. replace h with 1 in * by lia.
    rewrite Hside, Hunit. simpl. apply PIL_resize_refused; [|lia|lia|lia].
    rewrite Hsz. intros Hsame. inversion Hsame.
  - replace (Z.max w h) with h in * by lia. replace w with 1 in * by lia.
    rewrite Hside, Hunit. simpl. apply PIL_resize_refused; [|lia|lia|lia].
    rewrite Hsz. intros Hsame. inversion Hsame.
Qed.

Lemma ico_thin_image_raises_witness :
  convert_image (Decoded 0 "RGBA" (2000, 1)) "ICO" false 2000 1 = Raise ValueError.
Proof.
  apply (ico_thin_image_raises (Decoded 0 "RGBA" (2000, 1)) 2000 1); simpl; lia.
Defined.

(** ** The download name never leaves the download folder *)

Lemma partition_first_none_inv sep s :
  PyStr.partition_first sep s = None -> PyStr.contains sep s = false.
Proof.
  induction s as [|c rest IH]; simpl; [reflexivity|].
  destruct (Ascii.eqb c sep); [discriminate|].
  destruct (PyStr.partition_first sep rest) as [[b a]|]; [discriminate|].
  intros _. apply IH. reflexivity.
Qed.

Lemma split_parts_clean sep n :
  forall s, (String.length s <= n)%nat ->
    Forall (fun part => PyStr.contains sep part = false) (PyStr.split sep n s).
Proof.
  induction n as [|k IH]; intros s Hlen; simpl.
  - destruct s; [|simpl in Hlen; lia]. constructor; [reflexivity|constructor].
  - destruct (PyStr.partition_first sep s) as [[before after]|] eqn:Hp.
    + apply partition_first_inv in Hp as [Heq Hb]. constructor; [exact Hb|].
      apply IH. rewrite Heq, length_append in Hlen. simpl in Hlen. lia.
    + constructor; [|constructor]. apply partition_first_none_inv. exact Hp.
Qed.

Lemma last_in_or_default {A : Type} (l : list A) (d : A) :
  List.last l d = d \/ In (List.last l d) l.
Proof.
  induction l as [|a l' IH]; [left; reflexivity|].
  destruct l' as [|b l'']; [right; simpl; auto|].
  change (List.last (a :: b :: l'') d) with (List.last (b :: l'') d).
  destruct IH as [IH|IH]; [left; exact IH|right; right; exact IH].
Qed.

Lemma name_has_no_separator path : PyStr.contains "/" (PyPath.name path) = false.
Proof.
  unfold PyPath.name.
  destruct (last_in_or_default
              (List.filter PyPath.is_component (PyStr.split_all "/" path)) EmptyString)
    as [->|Hin]; [reflexivity|].
  apply List.filter_In in Hin as [Hin _].
  pose proof (split_parts_clean "/" (String.length path) path (Nat.le_refl _)) as Hall.
  rewrite List.Forall_forall in Hall. apply Hall. exact Hin.
Qed.

Lemma substring_prefix_clean c n :
  forall s, PyStr.contains c s = false ->
    PyStr.contains c (String.substring 0 n s) = false.
Proof.
  induction n as [|k IH]; intros s H.
  - destruct s; reflexivity.
  - destruct s as [|d rest]; [reflexivity|]. simpl in *.
    apply orb_false_iff in H as [Hd Hrest]. rewrite Hd. simpl. apply IH. exact Hrest.
Qed.

Lemma stem_has_no_separator path : PyStr.contains "/" (PyPath.stem path) = false.
Proof.
  unfold PyPath.stem.
  destruct ((0 <? PyStr.rfind "." (PyPath.name path))
            && (PyStr.rfind "." (PyPath.name path) <? PyStr.len (PyPath.name path) - 1)).
  - apply substring_prefix_clean. apply name_has_no_separator.
  - apply name_has_no_separator.
Qed.

(** X20. Whatever name the uploaded file carries, directory parts and
    all, the download name offered for a format of the table contains no
    directory separator: it is a stem free of "/" followed by
    "_converted." and the table's extension. *)
Theorem output_name_has_no_separator
    (file_name target_format : string) (fmt_info : format_info) :
  FORMAT_OPTIONS !! target_format = Some fmt_info ->
  PyStr.contains "/" (output_name file_name fmt_info) = false /\
  exists stem,
    output_name file_name fmt_info = stem +:+ "_converted." +:+ ext fmt_info /\
    PyStr.contains "/" stem = false.
Proof.
  intros Hfmt.
  assert (PyStr.contains "/" (ext fmt_info) = false) as Hext.
  { assert (In (target_format, fmt_info) FORMAT_OPTIONS_items) as Hin
      by (apply list_elem_of_In, elem_of_list_to_map_2; exact Hfmt).
    simpl in Hin.
    repeat (destruct Hin as [Heq|Hin]; [inversion Heq; subst; reflexivity|]).
    contradiction. }
  split.
  - unfold output_name. rewrite !contains_append, stem_has_no_separator, Hext. reflexivity.
  - exists (PyPath.stem file_name). split; [reflexivity|apply stem_has_no_separator].
Qed.

Lemma output_name_has_no_separator_witness :
  PyStr.contains "/"
    (output_name "../../etc/scan.v2.png" {| ext := "jpg"; mime := "image/jpeg"; pillow := "JPEG" |})
  = false.
Proof.
  apply (output_name_has_no_separator "../../etc/scan.v2.png" "JPEG").
  vm_compute. reflexivity.
Defined.

Example output_name_with_directories :
  output_name "../../etc/scan.v2.png" {| ext := "jpg"; mime := "image/jpeg"; pillow := "JPEG" |}
  = "scan.v2_converted.jpg".
Proof. vm_compute. reflexivity. Qed.

(** ** The kilobyte text at its upper end *)

(** X21. In the kilobyte branch the number shown lies between 1.0 and
    1024.0, and the upper end is reached: every size from 1,048,525 to
    1,048,575 bytes, just under one mebibyte, reads "1024.0 KB". *)
Theorem kilobyte_text_reaches_1024 (file_size : Z) :
  1024 <= file_size < 1048576 ->
  (exists tenths,
      10 <= tenths <= 10240 /\
      format_file_size file_size = PyNum.str_scaled tenths 1 +:+ " KB") /\
  (1048525 <= file_size -> format_file_size file_size = "1024.0 KB").
Proof.
  intros [Hlo Hhi]. unfold format_file_size. change (1024 * 1024) with 1048576.
  destruct (Z.ltb_spec file_size 1024); [lia|].
  destruct (Z.ltb_spec file_size 1048576); [|lia].
  unfold PyNum.str_round_ratio, PyNum.round_ratio. change (10 ^ Z.of_nat 1) with 10.
  pose proof (div_half_even_nearest (file_size * 10) 1024 ltac:(lia)) as Hn.
  remember (PyNum.div_half_even (file_size * 10) 1024) as tenths eqn:Ht. clear Ht.
  split.
  - exists tenths. split; [lia|reflexivity].
  - intros Hedge. assert (tenths = 10240) as -> by lia. reflexivity.
Qed.

Lemma kilobyte_text_reaches_1024_witness :
  format_file_size 1048575 = "1024.0 KB".
Proof. apply (kilobyte_text_reaches_1024 1048575); lia. Defined.

(** ** The embedded background *)






(** ** Render cycles *)

Section Cycles.

Context (fs : gmap string (list Byte.byte)) (PROJECT_ROOT : string).
Context (Image_open : list Byte.byte -> result image).
Context (Image_save : image -> string -> option Z -> result (list Byte.byte)).
Context (np_load : list Byte.byte -> result (list string)).
Context (tflite_Interpreter : list Byte.byte -> result interpreter).
Context (np_argsort : list spec_float -> list nat).

Lemma main_steps scan_file inputs st :
  main fs PROJECT_ROOT Image_open Image_save np_load tflite_Interpreter np_argsort
       scan_file inputs st =
  match scan_tab fs PROJECT_ROOT Image_open np_load tflite_Interpreter np_argsort
          scan_file st with
  | (Ok scan, st') =>
      match render_image_converter Image_open Image_save inputs with
      | Ok conv =>
          (Ok {| page_background := get_bg_css fs PROJECT_ROOT;
                 page_scan := scan; page_conversion := conv |}, st')
      | Raise e => (Raise e, st')
      end
  | (Raise e, st') => (Raise e, st')
  end.
Proof.
  unfold main, mbind, lift, ret.
  destruct (scan_tab fs PROJECT_ROOT Image_open np_load tflite_Interpreter np_argsort
              scan_file st)
    as [[scan|e] st']; [|reflexivity].
  destruct (render_image_converter Image_open Image_save inputs); reflexivity.
Qed.

(** X23. The converter is independent of the classifier: in a render
    cycle without an uploaded scan, [main] leaves both caches as they are,
    never looks at the model or the label file, and fails exactly when the
    converter fails, with the converter's exception. *)
Theorem converter_needs_no_model (inputs : converter_inputs) (st : caches) :
  snd (main fs PROJECT_ROOT Image_open Image_save np_load tflite_Interpreter np_argsort
         None inputs st) = st /\
  (forall e,
      fst (main fs PROJECT_ROOT Image_open Image_save np_load tflite_Interpreter np_argsort
             None inputs st) = Raise e
      <-> render_image_converter Image_open Image_save inputs = Raise e) /\
  (forall np_load2 tflite2 np_argsort2 st2,
      fst (main fs PROJECT_ROOT Image_open Image_save np_load2 tflite2 np_argsort2
             None inputs st2)
      = fst (main fs PROJECT_ROOT Image_open Image_save np_load tflite_Interpreter np_argsort
               None inputs st)).
Proof.
  assert (forall np tf srt s,
             main fs PROJECT_ROOT Image_open Image_save np tf srt None inputs s
             = match render_image_converter Image_open Image_save inputs with
               | Ok conv =>
                   (Ok {| page_background := get_bg_css fs PROJECT_ROOT;
                          page_scan := None; page_conversion := conv |}, s)
               | Raise e => (Raise e, s)
               end) as Hmain.
  { intros np tf srt s. unfold main, scan_tab, mbind, lift, ret. simpl.
    destruct (render_image_converter Image_open Image_save inputs); reflexivity. }
  split; [|split].
  - rewrite Hmain. destruct (render_image_converter Image_open Image_save inputs); reflexivity.
  - intros e. rewrite Hmain.
    destruct (render_image_converter Image_open Image_save inputs); simpl;
      split; intros H; congruence.
  - intros np2 tf2 srt2 st2. rewrite !Hmain.
    destruct (render_image_converter Image_open Image_save inputs); reflexivity.
Qed.

Lemma render_results_cached predicted_class confidence probs st names :
  class_names_cache st = Some names ->
  render_results fs PROJECT_ROOT np_load np_argsort predicted_class confidence probs st
  = (match confidence_texts confidence with
     | Ok texts =>
         match probability_rows np_argsort names probs with
         | Ok rows => Ok (render_card predicted_class confidence, texts, rows)
         | Raise e => Raise e
         end
     | Raise e => Raise e
     end, st).
Proof.
  intros H. unfold render_results, render_result_card, mbind, lift, ret.
  rewrite (load_class_names_cached _ _ _ _ _ H).
  destruct (confidence_texts confidence); [|reflexivity].
  destruct (probability_rows np_argsort names probs); reflexivity.
Qed.

Lemma predict_ok_state interp img st st' r :
  predict fs PROJECT_ROOT np_load interp img st = (Ok r, st') ->
  exists names, load_class_names fs PROJECT_ROOT np_load st = (Ok names, st').
Proof.
  unfold predict, mbind, lift, ret. intros H.
  destruct (load_class_names fs PROJECT_ROOT np_load st) as [[names|e] st1];
    [|discriminate].
  exists names.
  destruct (getitem (input_shape interp) 1); [|discriminate].
  destruct (getitem (input_shape interp) 2); [|discriminate].
  destruct (PIL.resize _ _ _); [|discriminate].
  destruct (getitem (forward interp _) 0) as [probs|]; [|discriminate].
  destruct (np_argmax probs) as [top_idx|]; [|discriminate].
  destruct (getitem probs top_idx); [|discriminate].
  destruct (getitem names top_idx); [|discriminate].
  inversion H; subst. reflexivity.
Qed.

(** A scan tab that returns has opened the upload, loaded the model, run
    the prediction, and drawn the card and the whole table. *)
Lemma scan_tab_ok_inv file st st' scan :
  scan_tab fs PROJECT_ROOT Image_open np_load tflite_Interpreter np_argsort (Some file) st
    = (Ok scan, st') ->
  exists img interp st1 label confidence probs names texts rows,
    Image_open (file_bytes file) = Ok img /\
    load_model fs PROJECT_ROOT tflite_Interpreter st = (Ok interp, st1) /\
    predict fs PROJECT_ROOT np_load interp img st1 = (Ok (label, confidence, probs), st') /\
    load_class_names fs PROJECT_ROOT np_load st1 = (Ok names, st') /\
    confidence_texts confidence = Ok texts /\
    probability_rows np_argsort names probs = Ok rows /\
    scan = Some (render_card label confidence, texts, rows).
Proof.
  unfold scan_tab, mbind, lift, ret. intros H.
  destruct (Image_open (file_bytes file)) as [img|]; [|discriminate].
  destruct (load_model fs PROJECT_ROOT tflite_Interpreter st) as [[interp|e] st1] eqn:Hm;
    [|discriminate].
  destruct (predict fs PROJECT_ROOT np_load interp img st1) as [[[[label c] probs]|e] st2]
    eqn:Hp; [|discriminate].
  destruct (predict_ok_state _ _ _ _ _ Hp) as [names Hn].
  destruct (load_class_names_ok _ _ _ _ _ _ Hn) as (Hcache & _).
  rewrite (render_results_cached _ _ _ _ _ Hcache) in H.
  destruct (confidence_texts c) as [texts|] eqn:Ht; [|discriminate].
  destruct (probability_rows np_argsort names probs) as [rows|] eqn:Hrows; [|discriminate].
  inversion H; subst.
  exists img, interp, st1, label, c, probs, names, texts, rows. repeat split; assumption.
Qed.

(** X24. Failures of a render cycle come in the order of the page: when
    the scan tab raises, [main] raises that exception and the outcome does
    not depend on the converter's inputs; when the scan succeeds and the
    converter raises, [main] raises the converter's exception but the
    model and the class names loaded by the scan stay cached. *)
Theorem main_failure_order (file : uploaded_file) (inputs : converter_inputs) (st : caches) :
  (forall e st',
      scan_tab fs PROJECT_ROOT Image_open np_load tflite_Interpreter np_argsort (Some file) st
        = (Raise e, st') ->
      forall inputs2,
        main fs PROJECT_ROOT Image_open Image_save np_load tflite_Interpreter np_argsort
             (Some file) inputs2 st = (Raise e, st')) /\
  (forall scan st' e,
      scan_tab fs PROJECT_ROOT Image_open np_load tflite_Interpreter np_argsort (Some file) st
        = (Ok scan, st') ->
      render_image_converter Image_open Image_save inputs = Raise e ->
      main fs PROJECT_ROOT Image_open Image_save np_load tflite_Interpreter np_argsort
           (Some file) inputs st = (Raise e, st') /\
      (exists interp, model_cache st' = Some interp) /\
      (exists names, class_names_cache st' = Some names)).
Proof.
  split.
  - intros e st' Hscan inputs2. rewrite main_steps, Hscan. reflexivity.
  - intros scan st' e Hscan Hconv. rewrite main_steps, Hscan, Hconv.
    split; [reflexivity|].
    destruct (scan_tab_ok_inv _ _ _ _ Hscan)
      as (img & interp & st1 & label & c & probs & names & texts & rows
          & _ & Hm & _ & Hn & _).
    destruct (load_model_ok _ _ _ _ _ _ Hm) as (Hmc & _).
    destruct (load_class_names_ok _ _ _ _ _ _ Hn) as (Hnc & Hkeep & _).
    split; [exists interp; congruence|exists names; exact Hnc].
Qed.

End Cycles.

Lemma main_failure_order_witness :
  main Sample.disk Sample.root
       (fun content => match content with [] => Raise OSError | _ => Sample.Image_open content end)
       Sample.Image_save Sample.np_load Sample.tflite_Interpreter SampleTable.argsort
       (Some Sample.scan)
       {| conv_file := Some {| file_name := "broken.png"; file_bytes := [] |};
          target_format := "PNG"; quality := 95; resize := false;
          new_w := 1; new_h := 1; convert_clicked := true |}
       cold
  = (Raise OSError,
     {| model_cache := Some Sample.interp; class_names_cache := Some Sample.names |}).
Proof.
  assert (exists scan,
            scan_tab Sample.disk Sample.root
              (fun content =>
                 match content with [] => Raise OSError | _ => Sample.Image_open content end)
              Sample.np_load Sample.tflite_Interpreter SampleTable.argsort
              (Some Sample.scan) cold
            = (Ok scan, {| model_cache := Some Sample.interp;
                           class_names_cache := Some Sample.names |})) as [scan Hscan]
    by (eexists; vm_compute; reflexivity).
  destruct (main_failure_order Sample.disk Sample.root
              (fun content =>
                 match content with [] => Raise OSError | _ => Sample.Image_open content end)
              Sample.Image_save Sample.np_load Sample.tflite_Interpreter SampleTable.argsort
              Sample.scan
              {| conv_file := Some {| file_name := "broken.png"; file_bytes := [] |};
                 target_format := "PNG"; quality := 95; resize := false;
                 new_w := 1; new_h := 1; convert_clicked := true |}
              cold) as [_ Hconv].
  destruct (Hconv scan _ OSError Hscan eq_refl) as [Hrun _]. exact Hrun.
Defined.

(** The order in a cycle that fails twice: with a label file of five names
    for the seven-class model and a converter upload that cannot be
    decoded, the scan is classified (the winner is among the five names)
    and its card is drawn, then the table raises IndexError; the converter
    is never reached. *)
Example main_short_label_list :
  fst (main Sample.disk Sample.root
         (fun content => match content with [] => Raise OSError | _ => Sample.Image_open content end)
         Sample.Image_save Sample.np_load Sample.tflite_Interpreter SampleTable.argsort
         (Some Sample.scan)
         {| conv_file := Some {| file_name := "broken.png"; file_bytes := [] |};
            target_format := "PNG"; quality := 95; resize := false;
            new_w := 1; new_h := 1; convert_clicked := true |}
         {| model_cache := None;
            class_names_cache := Some ["Battery"; "Bullet"; "Cutter"; "Hammer"; "Lighter";
                                       "Knife"] |})
  = Raise IndexError.
Proof. vm_compute. reflexivity. Qed.

(** ** A second cycle on warm caches *)

Lemma predict_depends_on_names
    fsA rootA npA fsB rootB npB interp img stA stA' stB stB' names :
  load_class_names fsA rootA npA stA = (Ok names, stA') ->
  load_class_names fsB rootB npB stB = (Ok names, stB') ->
  fst (predict fsA rootA npA interp img stA) = fst (predict fsB rootB npB interp img stB) /\
  snd (predict fsA rootA npA interp img stA) = stA' /\
  snd (predict fsB rootB npB interp img stB) = stB'.
Proof.
  intros HA HB. unfold predict, mbind, lift, ret. rewrite HA, HB.
  destruct (getitem (input_shape interp) 1); [|repeat split].
  destruct (getitem (input_shape interp) 2); [|repeat split].
  destruct (PIL.resize _ _ _); [|repeat split].
  destruct (getitem (forward interp _) 0) as [probs|]; [|repeat split].
  destruct (np_argmax probs) as [top_idx|]; [|repeat split].
  destruct (getitem probs top_idx); [|repeat split].
  destruct (getitem names top_idx); repeat split.
Qed.

(** X25. Once a render cycle with an uploaded scan has succeeded, the
    same cycle succeeds again from the caches alone: on any disk, even an
    empty one, and with any label or model reader, it leaves the caches
    as they are and shows the same scan result (card, percentage texts and
    probability table) and the same conversion. *)
Theorem warm_cycle_needs_no_files
    (fs : gmap string (list Byte.byte)) (PROJECT_ROOT : string)
    (Image_open : list Byte.byte -> result image)
    (Image_save : image -> string -> option Z -> result (list Byte.byte))
    (np_load : list Byte.byte -> result (list string))
    (tflite_Interpreter : list Byte.byte -> result interpreter)
    (np_argsort : list spec_float -> list nat)
    (file : uploaded_file) (inputs : converter_inputs) (st st' : caches) (p : page) :
  main fs PROJECT_ROOT Image_open Image_save np_load tflite_Interpreter np_argsort
       (Some file) inputs st = (Ok p, st') ->
  forall fs2 root2 np_load2 tflite2,
  exists p2,
    main fs2 root2 Image_open Image_save np_load2 tflite2 np_argsort (Some file) inputs st'
      = (Ok p2, st') /\
    page_scan p2 = page_scan p /\
    page_conversion p2 = page_conversion p.
Proof.
  intros Hmain fs2 root2 np_load2 tflite2.
  rewrite main_steps in Hmain.
  destruct (scan_tab fs PROJECT_ROOT Image_open np_load tflite_Interpreter np_argsort
              (Some file) st)
    as [[scan|e] st1] eqn:Hscan; [|discriminate].
  destruct (render_image_converter Image_open Image_save inputs) as [conv|e] eqn:Hconv;
    [|discriminate].
  inversion Hmain; subst. clear Hmain.
  destruct (scan_tab_ok_inv _ _ _ _ _ _ _ _ _ _ Hscan)
    as (img & interp & st1 & label & c & probs & names & texts & rows
        & Himg & Hm & Hp & Hn & Ht & Hrows & ->).
  destruct (load_model_ok _ _ _ _ _ _ Hm) as (Hmc & _).
  destruct (load_class_names_ok _ _ _ _ _ _ Hn) as (Hnc & Hkeep & _).
  assert (model_cache st' = Some interp) as Hmc' by congruence.
  assert (scan_tab fs2 root2 Image_open np_load2 tflite2 np_argsort (Some file) st'
          = (Ok (Some (render_card label c, texts, rows)), st')) as Hscan2.
  { unfold scan_tab, mbind, lift, ret. rewrite Himg.
    rewrite (load_model_cached _ _ _ _ _ Hmc').
    destruct (predict_depends_on_names fs PROJECT_ROOT np_load fs2 root2 np_load2
                interp img st1 st' st' st' names Hn
                (load_class_names_cached _ _ _ _ _ Hnc)) as (Hfst & _ & Hsnd).
    rewrite Hp in Hfst. simpl in Hfst.
    destruct (predict fs2 root2 np_load2 interp img st') as [r s2]. simpl in *.
    subst. rewrite (render_results_cached _ _ _ _ _ _ _ _ _ Hnc), Ht, Hrows. reflexivity. }
  eexists. rewrite main_steps, Hscan2, Hconv. split; [reflexivity|]. split; reflexivity.
Qed.

Lemma warm_cycle_needs_no_files_witness :
  exists p p2,
    main Sample.disk Sample.root Sample.Image_open Sample.Image_save
         Sample.np_load Sample.tflite_Interpreter SampleTable.argsort
         (Some Sample.scan) Sample.no_conversion cold
      = (Ok p, {| model_cache := Some Sample.interp;
                  class_names_cache := Some Sample.names |}) /\
    main ∅ "/elsewhere" Sample.Image_open Sample.Image_save
         (fun _ => Raise OSError) (fun _ => Raise OSError) SampleTable.argsort
         (Some Sample.scan) Sample.no_conversion
         {| model_cache := Some Sample.interp; class_names_cache := Some Sample.names |}
      = (Ok p2, {| model_cache := Some Sample.interp;
                   class_names_cache := Some Sample.names |}) /\
    page_scan p2 = page_scan p /\
    page_conversion p2 = page_conversion p.
Proof.
  assert (exists p,
            main Sample.disk Sample.root Sample.Image_open Sample.Image_save
                 Sample.np_load Sample.tflite_Interpreter SampleTable.argsort
                 (Some Sample.scan) Sample.no_conversion cold
            = (Ok p, {| model_cache := Some Sample.interp;
                        class_names_cache := Some Sample.names |})) as [p Hmain]
    by (eexists; vm_compute; reflexivity).
  destruct (warm_cycle_needs_no_files _ _ _ _ _ _ _ _ _ _ _ _ Hmain
              ∅ "/elsewhere" (fun _ => Raise OSError) (fun _ => Raise OSError))
    as (p2 & Hrun & Hscan & Hconv).
  exists p, p2. split; [exact Hmain|]. split; [exact Hrun|]. split; assumption.
Defined.

(** ** Guards inside a prediction *)

(** X26. Once the class names are loaded, each guard inside [predict]
    fails in its own way and leaves the caches as the load left them: an
    input shape with fewer than three entries raises IndexError; for an
    upload of at least one pixel each way, a declared height or width
    below one (both being C ints) raises ValueError at the resize; and
    after a resize that went through, an output tensor without a row
    raises IndexError and an empty first row raises ValueError at the
    argmax. *)
Theorem predict_guard_failures
    (fs : gmap string (list Byte.byte)) (PROJECT_ROOT : string)
    (np_load : list Byte.byte -> result (list string))
    (interp : interpreter) (img : image) (st st1 : caches)
    (class_names : list string) :
  load_class_names fs PROJECT_ROOT np_load st = (Ok class_names, st1) ->
  ((List.length (input_shape interp) < 3)%nat ->
     predict fs PROJECT_ROOT np_load interp img st = (Raise IndexError, st1)) /\
  (forall height width,
      nth_error (input_shape interp) 1 = Some height ->
      nth_error (input_shape interp) 2 = Some width ->
      - 2 ^ 31 <= height < 2 ^ 31 -> - 2 ^ 31 <= width < 2 ^ 31 ->
      1 <= fst (PIL.size img) -> 1 <= snd (PIL.size img) ->
      width < 1 \/ height < 1 ->
      predict fs PROJECT_ROOT np_load interp img st = (Raise ValueError, st1)) /\
  (forall height width img',
      nth_error (input_shape interp) 1 = Some height ->
      nth_error (input_shape interp) 2 = Some width ->
      PIL.resize (PIL.convert img "RGB") (width, height) DEFAULT_FILTER = Ok img' ->
      (forward interp img' = [] ->
         predict fs PROJECT_ROOT np_load interp img st = (Raise IndexError, st1)) /\
      (forall rest, forward interp img' = [] :: rest ->
         predict fs PROJECT_ROOT np_load interp img st = (Raise ValueError, st1))).
Proof.
  intros Hnames. split; [|split].
  - intros Hlen. unfold predict, mbind, lift, ret. rewrite Hnames.
    destruct (input_shape interp) as [|a [|b [|c rest]]]; simpl in Hlen; try lia;
      reflexivity.
  - intros height width Hh Hw Hhr Hwr Hiw Hih Hsmall.
    unfold predict, mbind, lift, ret, getitem. rewrite Hnames, Hh, Hw.
    rewrite PIL_resize_refused; [reflexivity| |exact Hwr|exact Hhr|exact Hsmall].
    simpl. destruct (PIL.size img) as [w h]. simpl in *.
    intros Hsame. inversion Hsame. lia.
  - intros height width img' Hh Hw Hr. split.
    + intros Hout. unfold predict, mbind, lift, ret, getitem.
      rewrite Hnames, Hh, Hw, Hr, Hout. reflexivity.
    + intros rest Hout. unfold predict, mbind, lift, ret, getitem.
      rewrite Hnames, Hh, Hw, Hr, Hout. reflexivity.
Qed.

Lemma predict_guard_failures_witness :
  predict Sample.disk Sample.root Sample.np_load
    {| input_shape := [1; 224]; forward := fun _ => [Sample.probs] |}
    (Decoded 0 "RGB" (640, 480)) cold = (Raise IndexError, Sample.warm) /\
  predict Sample.disk Sample.root Sample.np_load
    {| input_shape := [1; 0; 224; 3]; forward := fun _ => [Sample.probs] |}
    (Decoded 0 "RGB" (640, 480)) cold = (Raise ValueError, Sample.warm) /\
  predict Sample.disk Sample.root Sample.np_load
    {| input_shape := [1; 224; 224; 3]; forward := fun _ => [[]] |}
    (Decoded 0 "RGB" (640, 480)) cold = (Raise ValueError, Sample.warm).
Proof.
  split; [|split].
  - apply (predict_guard_failures Sample.disk Sample.root Sample.np_load
             {| input_shape := [1; 224]; forward := fun _ => [Sample.probs] |}
             (Decoded 0 "RGB" (640, 480)) cold Sample.warm Sample.names);
      [reflexivity|simpl; lia].
  - apply (predict_guard_failures Sample.disk Sample.root Sample.np_load
             {| input_shape := [1; 0; 224; 3]; forward := fun _ => [Sample.probs] |}
             (Decoded 0 "RGB" (640, 480)) cold Sample.warm Sample.names eq_refl)
      with (height := 0) (width := 224);
      [reflexivity|reflexivity|lia|lia|simpl; lia|simpl; lia|lia].
  - apply (predict_guard_failures Sample.disk Sample.root Sample.np_load
             {| input_shape := [1; 224; 224; 3]; forward := fun _ => [[]] |}
             (Decoded 0 "RGB" (640, 480)) cold Sample.warm Sample.names eq_refl)
      with (height := 224) (width := 224)
           (img' := Resized (Converted (Decoded 0 "RGB" (640, 480)) "RGB") (224, 224)
                      DEFAULT_FILTER) (rest := []);
      reflexivity.
Defined.
